(** * flame_utils.io.output: [convert_results] and [collect_data]

    A shallow embedding of [src/flame_utils/io/output.py].

    The module has two functions.  [convert_results] wraps every state of
    a propagation result with the [BeamState] constructor;
    [collect_data] reads the requested attributes off every state and
    packs them into one array per name, normalising the whole result and
    trying again when the first attempt raises.

    [BeamState], attribute access and [numpy.array] live outside the
    module.  They are parameters of the development: every theorem holds
    for any behaviour of these collaborators, and the calls made to them
    are recorded in a trace, so that "which states were read or wrapped,
    and in which order" can be stated next to "what was returned". *)

From stdpp Require Import gmap strings list fin_maps.
From Stdlib Require Import ZArith.

Local Open Scope string_scope.
Local Open Scope list_scope.

(** ** Python values passed as keyword options *)

Inductive pyval : Type :=
| PyNone
| PyBool (b : bool)
| PyInt (n : Z)
| PyStr (s : string).

(** [v is None] *)
Definition is_None (v : pyval) : bool :=
  match v with PyNone => true | _ => false end.

(** [bool(v)], Python's truth value. *)
Definition truthy (v : pyval) : bool :=
  match v with
  | PyNone => false
  | PyBool b => b
  | PyInt n => negb (n =? 0)%Z
  | PyStr s => negb (String.length s =? 0)%nat
  end.

(** [[k for k, v in kws.items() if v is not None]].  The keyword
    arguments [**kws] are a list of pairs [(name, value)] in call
    order; Python guarantees that the names are pairwise distinct. *)
Fixpoint valid_keys (kws : list (string * pyval)) : list string :=
  match kws with
  | [] => []
  | (k, v) :: rest =>
      if is_None v then valid_keys rest else k :: valid_keys rest
  end.

(** ** The keyword vocabulary documented by [collect_data] *)

Definition vocabulary : list string :=
  [ "pos"; "ref_beta"; "ref_bg"; "ref_gamma"; "ref_IonEk"; "ref_IonEs";
    "ref_IonQ"; "ref_IonW"; "ref_IonZ"; "ref_phis"; "ref_SampleIonK";
    "beta"; "bg"; "gamma"; "IonEk"; "IonEs"; "IonQ"; "IonW"; "IonZ";
    "phis"; "SampleIonK";
    "x0"; "xcen_all"; "y0"; "ycen_all"; "xp0"; "xpcen_all";
    "yp0"; "ypcen_all"; "phi0"; "phicen_all"; "dEk0"; "dEkcen_all";
    "x0_rms"; "xrms"; "y0_rms"; "yrms"; "xp0_rms"; "xprms";
    "yp0_rms"; "yprms"; "phi0_rms"; "phirms"; "dEk0_rms"; "dEkrms";
    "xrms_all"; "yrms_all"; "xprms_all"; "yprms_all"; "phirms_all";
    "dEkrms_all";
    "x0_env"; "xcen"; "y0_env"; "ycen"; "xp0_env"; "xpcen";
    "yp0_env"; "ypcen"; "phi0_env"; "phicen"; "dEk0_env"; "dEkcen";
    "moment0_env"; "cenvector"; "moment0"; "cenvector_all";
    "moment0_rms"; "rmsvector"; "moment1"; "beammatrix_all";
    "moment1_env"; "beammatrix" ].

Definition in_vocabulary (k : string) : bool :=
  existsb (String.eqb k) vocabulary.

(** ** Outcomes and traced computations *)

(** A Python call either returns a value or raises. *)
Inductive outcome (E A : Type) : Type :=
| Returns (a : A)
| Raises (e : E).
Arguments Returns {E A} a.
Arguments Raises {E A} e.

Definition returns {E A} (o : outcome E A) : bool :=
  match o with Returns _ => true | Raises _ => false end.

(** [[g(x) for x in l]] when only the outcome matters: the first
    exception ends the comprehension. *)
Fixpoint traverse {E A B} (g : A -> outcome E B) (l : list A)
  : outcome E (list B) :=
  match l with
  | [] => Returns []
  | x :: xs =>
      match g x with
      | Raises e => Raises e
      | Returns y =>
          match traverse g xs with
          | Raises e => Raises e
          | Returns ys => Returns (y :: ys)
          end
      end
  end.

Section Traced.

(** [Ev]: the calls that are recorded; [E]: exceptions. *)
Context {Ev E : Type}.

(** A computation: the calls it made, then how it ended. *)
Definition M (A : Type) : Type := (list Ev * outcome E A)%type.

Definition trace {A} (m : M A) : list Ev := fst m.
Definition result {A} (m : M A) : outcome E A := snd m.

Definition ret {A} (a : A) : M A := ([], Returns a).

Definition bind {A B} (m : M A) (f : A -> M B) : M B :=
  match m with
  | (t, Returns a) => let r := f a in (t ++ fst r, snd r)
  | (t, Raises e) => (t, Raises e)
  end.

(** [try: m] / [except: h], with a bare [except]: whatever [m] raises
    is dropped and [h] runs. *)
Definition try_except {A} (m : M A) (h : M A) : M A :=
  match m with
  | (t, Returns a) => (t, Returns a)
  | (t, Raises _) => (t ++ fst h, snd h)
  end.

(** A call to a collaborator: recorded, then its outcome. *)
Definition call {A} (ev : Ev) (r : outcome E A) : M A := ([ev], r).

End Traced.

Arguments M : clear implicits.

Notation "x <- c ;; k" := (bind c (fun x => k))
  (at level 63, c at next level, right associativity).

Section Comprehensions.

Context {Ev E : Type}.

(** [[f(x) for x in l]] *)
Fixpoint list_comp {A B} (f : A -> M Ev E B) (l : list A)
  : M Ev E (list B) :=
  match l with
  | [] => ret []
  | x :: xs => y <- f x ;; ys <- list_comp f xs ;; ret (y :: ys)
  end.

(** [{k: f(k) for k in keys}], filling the dictionary [d] in order; a
    repeated key overwrites the earlier item. *)
Fixpoint dict_comp {V} (f : string -> M Ev E V) (keys : list string)
    (d : gmap string V) : M Ev E (gmap string V) :=
  match keys with
  | [] => ret d
  | k :: ks => v <- f k ;; dict_comp f ks (<[k := v]> d)
  end.

End Comprehensions.

(** ** The module *)

(** Calls observable from outside the module. *)
Inductive event (loc obj : Type) : Type :=
| EvEntry (i : loc) (s : obj)      (* the iteration yields entry [(i, s)] *)
| EvGetattr (s : obj) (k : string) (* [getattr(s, k)] *)
| EvBeamState (s : obj).           (* [BeamState(s)] *)
Arguments EvEntry {loc obj} i s.
Arguments EvGetattr {loc obj} s k.
Arguments EvBeamState {loc obj} s.

(** An array, seen as the list of its items along the first axis. *)
Inductive ndarray (attrval : Type) : Type := NdArray (vs : list attrval).
Arguments NdArray {attrval} vs.

Definition items {attrval} (a : ndarray attrval) : list attrval :=
  match a with NdArray vs => vs end.

(** The states [BeamState] was called on, in call order. *)
Definition wrapped {loc obj} (t : list (event loc obj)) : list obj :=
  omap (fun ev => match ev with EvBeamState s => Some s | _ => None end) t.

(** The attribute reads [getattr(s, k)] that were made, in call order. *)
Definition attr_reads {loc obj} (t : list (event loc obj))
  : list (obj * string) :=
  omap (fun ev => match ev with EvGetattr s k => Some (s, k) | _ => None end) t.

(** The reads of one complete pass over the states [sts]: for each
    requested name in order, every state in order. *)
Definition reads_of_pass {obj} (sts : list obj) (keys : list string)
  : list (obj * string) :=
  flat_map (fun k => map (fun s => (s, k)) sts) keys.

Section Output.

(** A propagation result is a list of pairs [(location, state)].
    [loc]: the location component of an entry; [obj]: a state, raw or
    already a [BeamState] (Python does not tell them apart by type);
    [attrval]: what an attribute holds; [exn]: exceptions. *)
Context {loc obj attrval exn : Type}.

(** [getattr(s, k)] *)
Variable getattr : obj -> string -> outcome exn attrval.
(** [BeamState(s)], the constructor imported from [flame_utils.core]. *)
Variable BeamState : obj -> outcome exn obj.
(** [numpy.array] on a non-empty list of items: [Some e] when it
    raises [e], [None] when it builds the array. *)
Variable np_reject : list attrval -> option exn.

Local Notation "'Run'" := (M (event loc obj) exn).

(** [np.array(vs)]; the empty list always gives the empty array. *)
Definition np_array (vs : list attrval) : Run (ndarray attrval) :=
  match vs with
  | [] => ret (NdArray [])
  | _ :: _ =>
      match np_reject vs with
      | Some e => ([], Raises e)
      | None => ret (NdArray vs)
      end
  end.

(** [[(i, BeamState(s)) for (i, s) in res]]; [kws] is accepted and
    never looked at. *)
Definition convert_results (res : list (loc * obj))
    (kws : list (string * pyval)) : Run (list (loc * obj)) :=
  list_comp (fun '(i, s) =>
               _ <- call (EvEntry i s) (Returns tt) ;;
               b <- call (EvBeamState s) (BeamState s) ;;
               ret (i, b)) res.

(** [np.array([getattr(s, ik) for (i, s) in result])] *)
Definition column (res : list (loc * obj)) (ik : string)
  : Run (ndarray attrval) :=
  vs <- list_comp (fun '(i, s) =>
                     _ <- call (EvEntry i s) (Returns tt) ;;
                     call (EvGetattr s ik) (getattr s ik)) res ;;
  np_array vs.

(** [{ik: np.array([...]) for ik in valid_keys}] *)
Definition extract (res : list (loc * obj)) (keys : list string)
  : Run (gmap string (ndarray attrval)) :=
  dict_comp (column res) keys ∅.

Definition collect_data (res : list (loc * obj)) (kws : list (string * pyval))
  : Run (gmap string (ndarray attrval)) :=
  let valid_keys := valid_keys kws in
  try_except
    (extract res valid_keys)
    (res' <- convert_results res [] ;; extract res' valid_keys).

(** A state is already normalised when it answers every name of the
    vocabulary. *)
Definition is_BeamState (s : obj) : bool :=
  forallb (fun k => returns (getattr s k)) vocabulary.

(** A state the constructor takes. *)
Definition accepted (s : obj) : bool := returns (BeamState s).

(** Going through the states in order and stopping behind the first
    one the constructor refuses: the states it is called on. *)
Fixpoint constructor_calls (sts : list obj) : list obj :=
  match sts with
  | [] => []
  | s :: rest => s :: (if accepted s then constructor_calls rest else [])
  end.

End Output.

(** ** A small concrete world

    Objects are attribute tables.  [ctor] is what the constructor makes
    of the object: the table of the [BeamState] it builds, or nothing
    when it refuses the object. *)

Module Toy.

Inductive texn : Type :=
| AttributeError (name : string)
| TypeError.

Record tobj : Type := TObj {
  attrs : list (string * Z);
  ctor : option (list (string * Z))
}.

Fixpoint assoc (k : string) (l : list (string * Z)) : option Z :=
  match l with
  | [] => None
  | (k', v) :: rest => if String.eqb k k' then Some v else assoc k rest
  end.

Definition getattr (s : tobj) (k : string) : outcome texn Z :=
  match assoc k (attrs s) with
  | Some v => Returns v
  | None => Raises (AttributeError k)
  end.

Definition BeamState (s : tobj) : outcome texn tobj :=
  match ctor s with
  | Some a => Returns (TObj a (Some a))
  | None => Raises TypeError
  end.

Definition np_reject (vs : list Z) : option texn := None.

(** A raw state: no attribute of its own; the constructor derives
    the table [a]. *)
Definition raw (a : list (string * Z)) : tobj := TObj [] (Some a).

(** A [BeamState] holding [n] under every documented name. *)
Definition beam (n : Z) : tobj :=
  let a := map (fun k => (k, n)) vocabulary in TObj a (Some a).

(** An object the constructor refuses. *)
Definition junk : tobj := TObj [] None.

(** A raw state that answers [pos] itself, with [1], while the
    [BeamState] made from it answers [2]. *)
Definition raw_with_pos : tobj := TObj [("pos", 1%Z)] (Some [("pos", 2%Z)]).

(** A raw state that answers [pos] itself, as the [BeamState] made
    from it does; the [BeamState] answers [x0] as well. *)
Definition raw_agreeing : tobj :=
  TObj [("pos", 2%Z)] (Some [("pos", 2%Z); ("x0", 5%Z)]).

(** Another constructor: a [BeamState] it built, wrapped once more,
    answers one more name, [late]. *)
Definition BeamState_late (s : tobj) : outcome texn tobj :=
  match ctor s with
  | Some a => Returns (TObj a (Some (("late", 0%Z) :: a)))
  | None => Raises TypeError
  end.

(** Results to run the functions on. *)
Definition raws : list (nat * tobj) :=
  [(1, raw [("x0", 5%Z)]); (2, raw [("x0", 6%Z)])].
Definition beams : list (nat * tobj) := [(1, beam 3); (2, beam 4)].
Definition mixed : list (nat * tobj) := [(1, raw [("x0", 5%Z)]); (2, beam 7)].
Definition refused_second : list (nat * tobj) :=
  [(1, beam 7); (2, junk); (3, raw [("x0", 5%Z)])].
Definition refused_first : list (nat * tobj) := [(1, junk); (2, beam 7)].

Definition collect (res : list (nat * tobj)) (kws : list (string * pyval)) :=
  collect_data getattr BeamState np_reject res kws.

Definition convert (res : list (nat * tobj)) (kws : list (string * pyval)) :=
  convert_results BeamState res kws.

Definition direct (res : list (nat * tobj)) (keys : list string) :=
  extract getattr np_reject res keys.

End Toy.

(** ** Traced computations: outcome and trace of the combinators *)

Section TracedFacts.

Context {Ev E : Type}.

Lemma result_bind {A B} (m : M Ev E A) (f : A -> M Ev E B) :
  result (x <- m ;; f x) =
  match result m with
  | Returns a => result (f a)
  | Raises e => Raises e
  end.
Proof. destruct m as [t [a|e]]; reflexivity. Qed.

Lemma trace_bind {A B} (m : M Ev E A) (f : A -> M Ev E B) :
  trace (x <- m ;; f x) =
  match result m with
  | Returns a => trace m ++ trace (f a)
  | Raises _ => trace m
  end.
Proof. destruct m as [t [a|e]]; reflexivity. Qed.

Lemma result_try_except {A} (m h : M Ev E A) :
  result (try_except m h) =
  match result m with
  | Returns a => Returns a
  | Raises _ => result h
  end.
Proof. destruct m as [t [a|e]]; reflexivity. Qed.

Lemma trace_bind_ret {A B} (m : M Ev E A) (g : A -> B) :
  trace (x <- m ;; ret (g x)) = trace m.
Proof. destruct m as [t [a|e]]; cbn; [apply app_nil_r|reflexivity]. Qed.

Lemma trace_try_except {A} (m h : M Ev E A) :
  trace (try_except m h) =
  match result m with
  | Returns _ => trace m
  | Raises _ => trace m ++ trace h
  end.
Proof. destruct m as [t [a|e]]; reflexivity. Qed.

(** The outcome of a comprehension is the traversal of the outcomes. *)
Lemma result_list_comp {A B} (f : A -> M Ev E B) (l : list A) :
  result (list_comp f l) = traverse (fun x => result (f x)) l.
Proof.
  induction l as [|x xs IH]; [reflexivity|].
  cbn [list_comp traverse]. rewrite result_bind.
  destruct (result (f x)) as [y|e]; [|reflexivity].
  rewrite result_bind, IH.
  destruct (traverse _ xs); reflexivity.
Qed.

Lemma traverse_fmap {A B C} (g : B -> outcome E C) (h : A -> B) l :
  traverse (fun x => g (h x)) l = traverse g (h <$> l).
Proof.
  induction l as [|x xs IH]; [reflexivity|].
  cbn. destruct (g (h x)); [|reflexivity]. now rewrite IH.
Qed.

Lemma traverse_ext {A B} (g g' : A -> outcome E B) l :
  (forall x, g x = g' x) -> traverse g l = traverse g' l.
Proof.
  intros Hg. induction l as [|x xs IH]; [reflexivity|].
  cbn. now rewrite Hg, IH.
Qed.

Lemma traverse_Returns {A B} (g : A -> outcome E B) l ys :
  traverse g l = Returns ys <-> Forall2 (fun x y => g x = Returns y) l ys.
Proof.
  revert ys. induction l as [|x xs IH]; intros ys; cbn.
  - split.
    + intros [= <-]. constructor.
    + intros H. inversion H. reflexivity.
  - destruct (g x) as [y|e] eqn:Hx.
    + destruct (traverse g xs) as [zs|e] eqn:Hxs.
      * split.
        -- intros [= <-]. constructor; [assumption|]. now apply IH.
        -- intros H. inversion H as [|? y' ? zs' Hy Hrest]; subst.
           apply IH in Hrest. congruence.
      * split; [discriminate|].
        intros H. inversion H as [|? y' ? zs' Hy Hrest]; subst.
        apply IH in Hrest. discriminate.
    + split; [discriminate|].
      intros H. inversion H; subst. congruence.
Qed.

Lemma traverse_length {A B} (g : A -> outcome E B) l ys :
  traverse g l = Returns ys -> length ys = length l.
Proof.
  intros H. apply traverse_Returns in H.
  symmetry. eapply Forall2_length, H.
Qed.

(** Every state is taken exactly when the traversal returns. *)
Lemma traverse_returns {A B} (g : A -> outcome E B) l :
  returns (traverse g l) = forallb (fun x => returns (g x)) l.
Proof.
  induction l as [|x xs IH]; [reflexivity|].
  cbn. destruct (g x); [|reflexivity].
  cbn. rewrite <- IH. destruct (traverse g xs); reflexivity.
Qed.

(** A property of every recorded call passes through the combinators. *)
Lemma trace_bind_Forall {A B} (P : Ev -> Prop)
    (m : M Ev E A) (f : A -> M Ev E B) :
  Forall P (trace m) -> (forall a, Forall P (trace (f a))) ->
  Forall P (trace (x <- m ;; f x)).
Proof.
  intros Hm Hf. rewrite trace_bind.
  destruct (result m); [|assumption].
  apply Forall_app. split; [assumption|apply Hf].
Qed.

Lemma trace_list_comp_Forall {A B} (P : Ev -> Prop)
    (f : A -> M Ev E B) (l : list A) :
  (forall x, Forall P (trace (f x))) -> Forall P (trace (list_comp f l)).
Proof.
  intros Hf. induction l as [|x xs IH]; [constructor|].
  cbn [list_comp]. apply trace_bind_Forall; [apply Hf|].
  intros y. apply trace_bind_Forall; [assumption|].
  intros ys. constructor.
Qed.

Lemma trace_dict_comp_Forall {V} (P : Ev -> Prop)
    (f : string -> M Ev E V) keys d :
  (forall k, Forall P (trace (f k))) -> Forall P (trace (dict_comp f keys d)).
Proof.
  intros Hf. revert d. induction keys as [|k ks IH]; intros d; [constructor|].
  cbn [dict_comp]. apply trace_bind_Forall; [apply Hf|].
  intros v. apply IH.
Qed.

(** The outcome of a dictionary comprehension only depends on the
    outcomes of its items. *)
Lemma result_dict_comp_ext {V} (f g : string -> M Ev E V) keys d :
  (forall k, result (f k) = result (g k)) ->
  result (dict_comp f keys d) = result (dict_comp g keys d).
Proof.
  intros Hfg. revert d. induction keys as [|k ks IH]; intros d; [reflexivity|].
  cbn [dict_comp]. rewrite !result_bind, Hfg.
  destruct (result (g k)); [apply IH|reflexivity].
Qed.

Lemma result_dict_comp_ext_in {V} (f g : string -> M Ev E V) keys d :
  (forall k, k ∈ keys -> result (f k) = result (g k)) ->
  result (dict_comp f keys d) = result (dict_comp g keys d).
Proof.
  revert d. induction keys as [|k ks IH]; intros d Hfg; [reflexivity|].
  cbn [dict_comp]. rewrite !result_bind, (Hfg k) by left.
  destruct (result (g k)); [|reflexivity].
  apply IH. intros k' Hk'. apply Hfg. now right.
Qed.

(** What a dictionary comprehension that returns has stored. *)
Lemma dict_comp_lookup {V} (f : string -> M Ev E V) keys d m k :
  result (dict_comp f keys d) = Returns m ->
  m !! k = match decide (k ∈ keys) with
           | left _ => match result (f k) with
                       | Returns v => Some v
                       | Raises _ => None
                       end
           | right _ => d !! k
           end.
Proof.
  revert d. induction keys as [|k' ks IH]; intros d; cbn [dict_comp].
  - intros [= <-]. destruct (decide (k ∈ [])) as [Hin|_]; [|reflexivity].
    now apply elem_of_nil in Hin.
  - rewrite result_bind.
    destruct (result (f k')) as [v|e] eqn:Hk'; [|discriminate].
    intros Hm. rewrite (IH _ Hm).
    destruct (decide (k ∈ ks)) as [Hin|Hnin].
    + destruct (decide (k ∈ k' :: ks)) as [_|Hn]; [reflexivity|].
      exfalso. apply Hn. now right.
    + destruct (decide (k = k')) as [->|Hne].
      * rewrite lookup_insert_eq, Hk'.
        destruct (decide (k' ∈ k' :: ks)) as [_|Hn]; [reflexivity|].
        exfalso. apply Hn. left.
      * rewrite lookup_insert_ne by congruence.
        destruct (decide (k ∈ k' :: ks)) as [Hin|_]; [|reflexivity].
        apply elem_of_cons in Hin as [?|?]; contradiction.
Qed.

(** A dictionary comprehension returns exactly when every item does. *)
Lemma dict_comp_returns {V} (f : string -> M Ev E V) keys d :
  returns (result (dict_comp f keys d)) =
  forallb (fun k => returns (result (f k))) keys.
Proof.
  revert d. induction keys as [|k ks IH]; intros d; [reflexivity|].
  cbn [dict_comp forallb]. rewrite result_bind.
  destruct (result (f k)); [apply IH|reflexivity].
Qed.

End TracedFacts.

(** ** Facts about the two functions *)

Section OutputFacts.

Context {loc obj attrval exn : Type}.
Variable getattr : obj -> string -> outcome exn attrval.
Variable BeamState : obj -> outcome exn obj.
Variable np_reject : list attrval -> option exn.


(** *** The requested names *)

Lemma elem_of_valid_keys (kws : list (string * pyval)) k :
  k ∈ valid_keys kws <-> exists v, (k, v) ∈ kws /\ v <> PyNone.
Proof.
  induction kws as [|[k' v'] rest IH]; cbn [valid_keys].
  - split; [intros H; now apply elem_of_nil in H|].
    intros (v & H & _). now apply elem_of_nil in H.
  - destruct v'; cbn [is_None].
    1: { rewrite IH. split.
         - intros (v & Hin & Hv). exists v. split; [now right|assumption].
         - intros (v & Hin & Hv). exists v. split; [|assumption].
           apply elem_of_cons in Hin as [[= -> ->]|Hin];
             [contradiction|assumption]. }
    all: rewrite elem_of_cons, IH; split;
      [ intros [->|(v & Hin & Hv)];
        [eexists; split; [left|discriminate]
        |exists v; split; [now right|assumption]]
      | intros (v & Hin & Hv);
        apply elem_of_cons in Hin as [[= -> ->]|Hin];
        [now left|right; eauto] ].
Qed.

Lemma valid_keys_nil (kws : list (string * pyval)) :
  Forall (fun kv => kv.2 = PyNone) kws -> valid_keys kws = [].
Proof.
  induction 1 as [|[k v] rest Hv _ IH]; [reflexivity|].
  cbn in Hv. subst v. exact IH.
Qed.

(** A name given with [None] is not among the requested names, as
    long as the names are distinct. *)
Lemma None_not_valid (kws : list (string * pyval)) k :
  NoDup kws.*1 -> (k, PyNone) ∈ kws -> k ∉ valid_keys kws.
Proof.
  intros Hnd Hin Hk. apply elem_of_valid_keys in Hk as (v & Hin' & Hv).
  apply Hv. symmetry.
  assert (Hlk : forall l : list (string * pyval), NoDup l.*1 ->
             forall a b, (k, a) ∈ l -> (k, b) ∈ l -> a = b).
  { clear. induction l as [|[k' v'] l IH]; intros Hnd a b Ha Hb.
    - now apply elem_of_nil in Ha.
    - cbn in Hnd. apply NoDup_cons in Hnd as [Hk' Hnd].
      apply elem_of_cons in Ha as [[= <- <-]|Ha];
        apply elem_of_cons in Hb as [[= <-]|Hb].
      + reflexivity.
      + exfalso. apply Hk'. apply list_elem_of_fmap. now exists (k, b).
      + exfalso. apply Hk'. apply list_elem_of_fmap. now exists (k, a).
      + now apply IH. }
  exact (Hlk kws Hnd _ _ Hin Hin').
Qed.

(** *** Outcomes *)

Lemma result_np_array vs a :
  result (np_array (loc:=loc) (obj:=obj) np_reject vs) = Returns a ->
  items a = vs.
Proof.
  destruct vs as [|v vs]; cbn.
  - now intros [= <-].
  - destruct (np_reject (v :: vs)); [discriminate|]. now intros [= <-].
Qed.

(** The outcome of a column is decided by the states alone. *)
Lemma result_column (res : list (loc * obj)) k :
  result (column getattr np_reject res k) =
  match traverse (fun s => getattr s k) res.*2 with
  | Returns vs => result (np_array (loc:=loc) (obj:=obj) np_reject vs)
  | Raises e => Raises e
  end.
Proof.
  unfold column. rewrite result_bind, result_list_comp.
  rewrite <- traverse_fmap.
  erewrite traverse_ext; [reflexivity|].
  now intros [i s].
Qed.

Lemma column_Returns (res : list (loc * obj)) k a :
  result (column getattr np_reject res k) = Returns a ->
  Forall2 (fun e v => getattr e.2 k = Returns v) res (items a).
Proof.
  rewrite result_column.
  destruct (traverse _ _) as [vs|e] eqn:Hvs; [|discriminate].
  intros Ha. apply result_np_array in Ha. rewrite Ha.
  apply traverse_Returns in Hvs.
  apply Forall2_fmap_l in Hvs. exact Hvs.
Qed.

Lemma result_extract_states (res res' : list (loc * obj)) keys :
  res.*2 = res'.*2 ->
  result (extract getattr np_reject res keys)
  = result (extract getattr np_reject res' keys).
Proof.
  intros Hst. apply result_dict_comp_ext.
  intros k. now rewrite !result_column, Hst.
Qed.

Lemma extract_lookup (res : list (loc * obj)) keys m k a :
  result (extract getattr np_reject res keys) = Returns m ->
  m !! k = Some a <->
  k ∈ keys /\ result (column getattr np_reject res k) = Returns a.
Proof.
  intros Hm. rewrite (dict_comp_lookup _ _ _ _ k Hm).
  destruct (decide (k ∈ keys)) as [Hin|Hnin].
  - destruct (result (column getattr np_reject res k)) as [a'|e].
    + split; [intros [= ->]; auto|]. now intros [_ [= ->]].
    + split; [discriminate|]. now intros [_ ?].
  - rewrite lookup_empty. split; [discriminate|]. now intros [? _].
Qed.

Lemma extract_is_Some (res : list (loc * obj)) keys m k :
  result (extract getattr np_reject res keys) = Returns m ->
  is_Some (m !! k) <-> k ∈ keys.
Proof.
  intros Hm. split.
  - intros [a Ha]. now apply (extract_lookup _ _ _ _ _ Hm) in Ha as [? _].
  - intros Hin.
    pose proof (dict_comp_returns (column getattr np_reject res) keys ∅)
      as Hall.
    fold (extract getattr np_reject res keys) in Hall.
    rewrite Hm in Hall. symmetry in Hall.
    rewrite forallb_forall in Hall.
    specialize (Hall k (proj1 (list_elem_of_In _ _) Hin)).
    destruct (result (column getattr np_reject res k)) as [a|e] eqn:Hk;
      [|discriminate].
    exists a. now apply (extract_lookup _ _ _ _ _ Hm).
Qed.

Lemma extract_dom (res : list (loc * obj)) keys m :
  result (extract getattr np_reject res keys) = Returns m ->
  dom m = list_to_set keys.
Proof.
  intros Hm. apply set_eq. intros k.
  rewrite elem_of_dom, (extract_is_Some _ _ _ _ Hm), elem_of_list_to_set.
  reflexivity.
Qed.

(** [convert_results] on the outcome level: the states go through the
    constructor one after the other, the locations are put back. *)
Lemma result_convert_results (res : list (loc * obj)) kws :
  result (convert_results BeamState res kws) =
  match traverse BeamState res.*2 with
  | Returns bs => Returns (zip res.*1 bs)
  | Raises e => Raises e
  end.
Proof.
  unfold convert_results. rewrite result_list_comp.
  induction res as [|[i s] res IH]; [reflexivity|].
  cbn. destruct (BeamState s) as [b|e]; [|reflexivity].
  cbn. cbn in IH. rewrite IH.
  destruct (traverse BeamState res.*2); reflexivity.
Qed.

Lemma convert_results_Returns (res out : list (loc * obj)) kws :
  result (convert_results BeamState res kws) = Returns out <->
  Forall2 (fun e o => o.1 = e.1 /\ BeamState e.2 = Returns o.2) res out.
Proof.
  unfold convert_results. rewrite (result_list_comp _ res), traverse_Returns.
  split; intros H; eapply Forall2_impl; try exact H;
    intros [i s] [i' b]; cbn.
  - destruct (BeamState s) as [b0|e]; cbn; [|discriminate].
    now intros [= <- <-].
  - intros [-> ->]. reflexivity.
Qed.

(** [collect_data] on the outcome level. *)
Lemma result_collect_data (res : list (loc * obj)) kws :
  result (collect_data getattr BeamState np_reject res kws) =
  match result (extract getattr np_reject res (valid_keys kws)) with
  | Returns m => Returns m
  | Raises _ =>
      match result (convert_results BeamState res []) with
      | Returns res' => result (extract getattr np_reject res' (valid_keys kws))
      | Raises e => Raises e
      end
  end.
Proof.
  unfold collect_data. cbv zeta.
  rewrite result_try_except, result_bind. reflexivity.
Qed.

(** *** Traces *)

Lemma wrapped_app (t1 t2 : list (event loc obj)) :
  wrapped (t1 ++ t2) = wrapped t1 ++ wrapped t2.
Proof. apply omap_app. Qed.

Lemma trace_column_no_wrap (res : list (loc * obj)) k :
  wrapped (trace (column getattr np_reject res k)) = [].
Proof.
  assert (H : Forall (fun ev : event loc obj =>
                        match ev with EvBeamState _ => False | _ => True end)
                (trace (column getattr np_reject res k))).
  { unfold column. apply trace_bind_Forall.
    - apply trace_list_comp_Forall. intros [i s]. repeat constructor.
    - intros vs. unfold np_array.
      destruct vs; [constructor|]. destruct (np_reject _); constructor. }
  induction H as [|ev t Hev _ IH]; [reflexivity|].
  destruct ev; cbn; [exact IH|exact IH|contradiction].
Qed.

Lemma trace_extract_no_wrap (res : list (loc * obj)) keys :
  wrapped (trace (extract getattr np_reject res keys)) = [].
Proof.
  unfold extract. generalize (∅ : gmap string (ndarray attrval)).
  induction keys as [|k ks IH]; intros d; [reflexivity|].
  cbn [dict_comp]. rewrite trace_bind.
  destruct (result (column getattr np_reject res k)).
  - rewrite wrapped_app.
    now rewrite trace_column_no_wrap, IH.
  - apply trace_column_no_wrap.
Qed.

(** The constructor calls of [convert_results]: one state after the
    other, nothing skipped, nothing after a refusal. *)
Lemma wrapped_convert_results (res : list (loc * obj)) kws :
  wrapped (trace (convert_results BeamState res kws)) =
  constructor_calls BeamState res.*2.
Proof.
  unfold convert_results.
  induction res as [|[i s] res IH]; [reflexivity|].
  cbn [list_comp fmap list_fmap snd constructor_calls].
  rewrite trace_bind. unfold accepted.
  destruct (BeamState s) as [b|e];
    cbn [result trace snd fst call bind ret app returns].
  - rewrite trace_bind_ret, <- IH. reflexivity.
  - reflexivity.
Qed.

Lemma wrapped_convert_results_all (res : list (loc * obj)) kws :
  forallb (accepted BeamState) res.*2 = true ->
  wrapped (trace (convert_results BeamState res kws)) = res.*2.
Proof.
  rewrite wrapped_convert_results.
  induction res.*2 as [|s sts IH]; [reflexivity|].
  cbn. intros [-> H]%andb_prop. now rewrite IH.
Qed.

Lemma wrapped_convert_results_refused (res : list (loc * obj)) kws pre s post :
  res.*2 = pre ++ s :: post ->
  forallb (accepted BeamState) pre = true ->
  accepted BeamState s = false ->
  wrapped (trace (convert_results BeamState res kws)) = pre ++ [s].
Proof.
  rewrite wrapped_convert_results. intros -> Hpre Hs.
  induction pre as [|p pre IH]; cbn.
  - now rewrite Hs.
  - cbn in Hpre. apply andb_prop in Hpre as [-> Hpre]. now rewrite IH.
Qed.

Lemma convert_results_returns (res : list (loc * obj)) kws :
  returns (result (convert_results BeamState res kws)) =
  forallb (accepted BeamState) res.*2.
Proof.
  rewrite result_convert_results.
  change (accepted BeamState) with (fun s => returns (BeamState s)).
  rewrite <- traverse_returns.
  destruct (traverse BeamState res.*2); reflexivity.
Qed.

(** The calls of [collect_data]: the direct pass, then, when it
    raised, the conversion and the second pass. *)
Lemma wrapped_collect_data (res : list (loc * obj)) kws :
  wrapped (trace (collect_data getattr BeamState np_reject res kws)) =
  match result (extract getattr np_reject res (valid_keys kws)) with
  | Returns _ => []
  | Raises _ => wrapped (trace (convert_results BeamState res []))
  end.
Proof.
  unfold collect_data. cbv zeta. rewrite trace_try_except.
  destruct (result (extract getattr np_reject res (valid_keys kws))).
  - apply trace_extract_no_wrap.
  - rewrite wrapped_app.
    rewrite trace_extract_no_wrap, trace_bind. cbn [app].
    destruct (result (convert_results BeamState res [])); [|reflexivity].
    rewrite wrapped_app.
    now rewrite trace_extract_no_wrap, app_nil_r.
Qed.

End OutputFacts.

(** ** Properties of [convert_results] and [collect_data] *)

Section Specification.

Context {loc obj attrval exn : Type}.
Variable getattr : obj -> string -> outcome exn attrval.
Variable BeamState : obj -> outcome exn obj.
Variable np_reject : list attrval -> option exn.

(** What a returned mapping holds: the requested names and no other. *)
Lemma collect_data_is_Some (res : list (loc * obj)) kws m k :
  result (collect_data getattr BeamState np_reject res kws) = Returns m ->
  is_Some (m !! k) <-> k ∈ valid_keys kws.
Proof.
  rewrite result_collect_data.
  destruct (result (extract getattr np_reject res (valid_keys kws)))
    as [m1|e1] eqn:H1.
  - intros [= <-]. now apply (extract_is_Some getattr np_reject res).
  - destruct (result (convert_results BeamState res [])) as [res'|e2];
      [|discriminate].
    intros H2. now apply (extract_is_Some getattr np_reject res').
Qed.

(** C5. When the constructor takes every state of [res],
    [convert_results] returns a list as long as [res], with the same
    locations in the same order, whose i-th state is the [BeamState]
    built from the i-th state of [res]. *)
Theorem convert_results_normalizes (res : list (loc * obj)) kws :
  forallb (accepted BeamState) res.*2 = true ->
  exists out,
    result (convert_results BeamState res kws) = Returns out /\
    length out = length res /\
    out.*1 = res.*1 /\
    Forall2 (fun e o => BeamState e.2 = Returns o.2) res out.
Proof.
  intros Hacc. rewrite <- (convert_results_returns BeamState res kws) in Hacc.
  destruct (result (convert_results BeamState res kws)) as [out|e] eqn:Hout;
    [|discriminate].
  exists out. split; [reflexivity|].
  apply convert_results_Returns in Hout.
  split; [symmetry; eapply Forall2_length, Hout|].
  split.
  - induction Hout as [|[i s] [i' b] res out [Hi _] _ IH]; [reflexivity|].
    cbn in *. now rewrite Hi, IH.
  - eapply Forall2_impl; [exact Hout|]. now intros ? ? [_ ?].
Qed.

(** C8. The keyword options of [convert_results] change nothing:
    same calls, same outcome as with no option at all. *)
Theorem convert_results_ignores_options (res : list (loc * obj)) kws :
  convert_results BeamState res kws = convert_results BeamState res [].
Proof. reflexivity. Qed.

(** C10. Two results with the same states in the same order give the
    same outcome, whatever their locations. *)
Theorem collect_data_ignores_locations (res1 res2 : list (loc * obj)) kws :
  res1.*2 = res2.*2 ->
  result (collect_data getattr BeamState np_reject res1 kws) =
  result (collect_data getattr BeamState np_reject res2 kws).
Proof.
  intros Hst. rewrite !result_collect_data.
  rewrite (result_extract_states _ _ res1 res2 _ Hst).
  destruct (result (extract getattr np_reject res2 (valid_keys kws)));
    [reflexivity|].
  rewrite !result_convert_results, Hst.
  destruct (traverse BeamState res2.*2) as [bs|e2] eqn:Hbs; [|reflexivity].
  apply traverse_length in Hbs. rewrite length_fmap in Hbs.
  apply result_extract_states.
  rewrite !snd_zip; [reflexivity| |].
  - rewrite length_fmap. lia.
  - rewrite length_fmap, <- (length_fmap snd res1), Hst, length_fmap. lia.
Qed.

(** C2. On a result whose states are all [BeamState]s, with requested
    names taken from the vocabulary (and attribute values that
    [numpy.array] packs), [collect_data] returns a mapping whose keys
    are exactly the requested names; the array under each name has one
    item per entry, the i-th item being that attribute of the i-th
    state.  No state is handed to the constructor. *)
Theorem collect_data_normalized (res : list (loc * obj)) kws :
  forallb (is_BeamState getattr) res.*2 = true ->
  forallb in_vocabulary (valid_keys kws) = true ->
  (forall k vs, k ∈ valid_keys kws ->
     traverse (fun s => getattr s k) res.*2 = Returns vs ->
     np_reject vs = None) ->
  exists m,
    result (collect_data getattr BeamState np_reject res kws) = Returns m /\
    dom m = list_to_set (valid_keys kws) /\
    (forall k, k ∈ valid_keys kws ->
       exists a, m !! k = Some a /\
         length (items a) = length res /\
         Forall2 (fun e v => getattr e.2 k = Returns v) res (items a)) /\
    wrapped (trace (collect_data getattr BeamState np_reject res kws)) = [].
Proof.
  intros Hnorm Hvoc Hnp.
  assert (Hcol : forall k, In k (valid_keys kws) ->
            returns (result (column getattr np_reject res k)) = true).
  { intros k Hk. rewrite result_column.
    destruct (traverse (fun s => getattr s k) res.*2) as [vs|e] eqn:Hvs.
    - pose proof (Hnp k vs (proj2 (list_elem_of_In _ _) Hk) Hvs) as Hok.
      unfold np_array. destruct vs; [reflexivity|]. now rewrite Hok.
    - exfalso.
      assert (Hr : returns (traverse (fun s => getattr s k) res.*2) = true).
      { rewrite traverse_returns. apply forallb_forall. intros s Hs.
        rewrite forallb_forall in Hnorm. specialize (Hnorm s Hs).
        unfold is_BeamState in Hnorm. rewrite forallb_forall in Hnorm.
        apply Hnorm.
        rewrite forallb_forall in Hvoc. specialize (Hvoc k Hk).
        unfold in_vocabulary in Hvoc.
        apply existsb_exists in Hvoc as (k' & Hk' & Heq).
        apply String.eqb_eq in Heq. now subst k'. }
      now rewrite Hvs in Hr. }
  assert (Hret : returns (result (extract getattr np_reject res
                                    (valid_keys kws))) = true).
  { unfold extract. rewrite dict_comp_returns. now apply forallb_forall. }
  destruct (result (extract getattr np_reject res (valid_keys kws)))
    as [m|e] eqn:Hm; [|discriminate].
  exists m. rewrite result_collect_data, wrapped_collect_data, Hm.
  split; [reflexivity|].
  split; [now apply (extract_dom getattr np_reject res)|].
  split; [|reflexivity].
  intros k Hk.
  destruct (proj2 (extract_is_Some _ _ _ _ _ k Hm) Hk) as [a Ha].
  exists a. split; [assumption|].
  apply (extract_lookup _ _ _ _ _ _ _ Hm) in Ha as [_ Ha].
  apply column_Returns in Ha.
  split; [symmetry; eapply Forall2_length, Ha|exact Ha].
Qed.

(** C3, as the code has it.  The requested names are the names given
    with a value other than [None].  A name given with a falsy value
    that is not [None] ([False], [0], the empty string) is requested
    like any other: it is a key of the returned mapping. *)
Theorem non_null_options_are_requested (res : list (loc * obj)) kws :
  (forall k,
     k ∈ valid_keys kws <-> exists v, (k, v) ∈ kws /\ v <> PyNone) /\
  (forall k v m,
     (k, v) ∈ kws -> truthy v = false -> v <> PyNone ->
     result (collect_data getattr BeamState np_reject res kws) = Returns m ->
     is_Some (m !! k)).
Proof.
  split; [apply elem_of_valid_keys|].
  intros k v m Hin _ Hv Hm.
  apply (collect_data_is_Some _ _ _ k Hm), elem_of_valid_keys. eauto.
Qed.

(** C4. A name given with [None] is not a key of the returned mapping,
    while every name given with a truthy value is. *)
Theorem None_option_excluded (res : list (loc * obj)) kws k m :
  NoDup kws.*1 ->
  (k, PyNone) ∈ kws ->
  result (collect_data getattr BeamState np_reject res kws) = Returns m ->
  m !! k = None /\
  (forall k' v', (k', v') ∈ kws -> truthy v' = true -> is_Some (m !! k')).
Proof.
  intros Hnd Hin Hm. split.
  - apply eq_None_not_Some. intros Hs.
    apply (collect_data_is_Some _ _ _ k Hm) in Hs.
    now apply (None_not_valid kws k Hnd Hin).
  - intros k' v' Hin' Ht.
    apply (collect_data_is_Some _ _ _ k' Hm), elem_of_valid_keys.
    exists v'. split; [assumption|]. intros ->. discriminate.
Qed.

(** C6. The one exception that is dropped is the one raised by the
    direct pass.  When the direct pass returns, that mapping is the
    answer.  When it raises: an exception of the conversion reaches the
    caller as it is; after a conversion that returned, whatever the
    second pass does, mapping or exception, is the answer.  The outcome
    is either a mapping or an exception, never both. *)
Theorem collect_data_error_policy (res : list (loc * obj)) kws :
  (forall m,
     result (extract getattr np_reject res (valid_keys kws)) = Returns m ->
     result (collect_data getattr BeamState np_reject res kws) = Returns m) /\
  (forall e1 e2,
     result (extract getattr np_reject res (valid_keys kws)) = Raises e1 ->
     result (convert_results BeamState res []) = Raises e2 ->
     result (collect_data getattr BeamState np_reject res kws) = Raises e2) /\
  (forall e1 res' e3,
     result (extract getattr np_reject res (valid_keys kws)) = Raises e1 ->
     result (convert_results BeamState res []) = Returns res' ->
     result (extract getattr np_reject res' (valid_keys kws)) = Raises e3 ->
     result (collect_data getattr BeamState np_reject res kws) = Raises e3) /\
  (forall e1 res' m,
     result (extract getattr np_reject res (valid_keys kws)) = Raises e1 ->
     result (convert_results BeamState res []) = Returns res' ->
     result (extract getattr np_reject res' (valid_keys kws)) = Returns m ->
     result (collect_data getattr BeamState np_reject res kws) = Returns m).
Proof.
  rewrite result_collect_data.
  repeat split.
  - now intros m ->.
  - now intros e1 e2 -> ->.
  - now intros e1 res' e3 -> ->.
  - now intros e1 res' m -> ->.
Qed.

(** C7. With no requested name (no option, or [None] everywhere)
    [collect_data] returns the empty mapping and makes no call at all:
    no entry is read, no attribute, no constructor.  On the empty
    result it returns, again without any call, a mapping whose keys
    are the names given with a value other than [None], each with the
    empty array. *)
Theorem collect_data_nothing_to_collect (res : list (loc * obj)) kws :
  (Forall (fun kv => kv.2 = PyNone) kws ->
   collect_data getattr BeamState np_reject res kws = ([], Returns ∅)) /\
  (exists m,
     collect_data getattr BeamState np_reject ([] : list (loc * obj)) kws
     = ([], Returns m) /\
     (forall k, is_Some (m !! k) <-> exists v, (k, v) ∈ kws /\ v <> PyNone) /\
     (forall k v, (k, v) ∈ kws -> v <> PyNone -> m !! k = Some (NdArray []))).
Proof.
  split.
  - intros Hnone. unfold collect_data.
    now rewrite (valid_keys_nil kws Hnone).
  - assert (Hrun : forall keys d, exists m,
              dict_comp (column (loc := loc) getattr np_reject []) keys d
              = ([], Returns m)).
    { induction keys as [|k ks IH]; intros d; [now exists d|].
      destruct (IH (<[k := NdArray []]> d)) as [m Hm].
      exists m. cbn [dict_comp]. unfold column at 1. cbn. rewrite Hm.
      reflexivity. }
    destruct (Hrun (valid_keys kws) ∅) as [m Hm].
    exists m.
    assert (Hres : result (extract (loc := loc) getattr np_reject []
                             (valid_keys kws)) = Returns m).
    { unfold extract. now rewrite Hm. }
    split; [|split].
    + unfold collect_data, extract. cbv zeta. now rewrite Hm.
    + intros k. rewrite (extract_is_Some _ _ _ _ _ k Hres).
      apply elem_of_valid_keys.
    + intros k v Hin Hv.
      apply (extract_lookup _ _ _ _ _ _ _ Hres). split; [|reflexivity].
      apply elem_of_valid_keys. eauto.
Qed.

(** C9, as the code has it.  When the direct pass raises, the
    constructor is called on the states of the input in order,
    [BeamState]s or not, and on nothing behind the first state it
    refuses: on all of them when it takes them all, on [pre ++ [s]]
    when [s] is the first it refuses.  [collect_data] returns on this
    path only if the constructor takes every state of the input. *)
Theorem fallback_constructor_calls (res : list (loc * obj)) kws e :
  result (extract getattr np_reject res (valid_keys kws)) = Raises e ->
  (forallb (accepted BeamState) res.*2 = true ->
   wrapped (trace (collect_data getattr BeamState np_reject res kws))
   = res.*2) /\
  (forall pre s post,
     res.*2 = pre ++ s :: post ->
     forallb (accepted BeamState) pre = true ->
     accepted BeamState s = false ->
     wrapped (trace (collect_data getattr BeamState np_reject res kws))
     = pre ++ [s]) /\
  (returns (result (collect_data getattr BeamState np_reject res kws)) = true ->
   forallb (accepted BeamState) res.*2 = true).
Proof.
  intros Hfirst. rewrite wrapped_collect_data, result_collect_data, Hfirst.
  split; [|split].
  - apply wrapped_convert_results_all.
  - intros pre s post. apply wrapped_convert_results_refused.
  - rewrite <- (convert_results_returns BeamState res []).
    now destruct (result (convert_results BeamState res [])).
Qed.

(** Reads that agree state by state agree list by list. *)
Lemma converted_reads_agree (l l' : list (loc * obj)) k vs :
  Forall2 (fun e o => o.1 = e.1 /\ BeamState e.2 = Returns o.2) l l' ->
  (forall s b v,
     s ∈ l.*2 -> BeamState s = Returns b -> getattr s k = Returns v ->
     getattr b k = Returns v) ->
  Forall2 (fun s v => getattr s k = Returns v) l.*2 vs ->
  Forall2 (fun s v => getattr s k = Returns v) l'.*2 vs.
Proof.
  intros Hconv. revert vs.
  induction Hconv as [|[i s] [i' b] l l' [_ Hb] _ IH];
    intros vs Hagree Hvs; cbn in *.
  - inversion Hvs. constructor.
  - inversion Hvs as [|? v ? vs' Hv Hrest]; subst.
    constructor.
    + apply (Hagree s b v); [left|assumption|assumption].
    + apply IH; [|assumption].
      intros t c w Ht. apply Hagree. now right.
Qed.

(** When the direct pass over [res] returns and every answer a state
    of [res] gives to a requested name is also the answer of the
    [BeamState] built from it, the direct pass over the converted
    result returns the same mapping. *)
Lemma direct_pass_agrees (res res' : list (loc * obj)) keys m :
  result (convert_results BeamState res []) = Returns res' ->
  (forall s b k v,
     s ∈ res.*2 -> k ∈ keys ->
     BeamState s = Returns b -> getattr s k = Returns v ->
     getattr b k = Returns v) ->
  result (extract getattr np_reject res keys) = Returns m ->
  result (extract getattr np_reject res' keys) = Returns m.
Proof.
  intros Hconv Hagree Hm. rewrite <- Hm.
  apply result_dict_comp_ext_in. intros k Hk.
  destruct (proj2 (extract_is_Some _ _ _ _ _ k Hm) Hk) as [a Ha].
  apply (extract_lookup _ _ _ _ _ _ _ Hm) in Ha as [_ Ha].
  rewrite result_column in Ha. rewrite !result_column.
  destruct (traverse (fun s => getattr s k) res.*2) as [vs|e] eqn:Hvs;
    [|discriminate].
  apply traverse_Returns in Hvs. apply convert_results_Returns in Hconv.
  assert (Hvs' : traverse (fun s => getattr s k) res'.*2 = Returns vs).
  { apply traverse_Returns.
    apply (converted_reads_agree res res' k vs Hconv); [|exact Hvs].
    intros s b v Hs. now apply Hagree. }
  now rewrite Hvs'.
Qed.

(** C1, as the code has it.  Let [res'] be [convert_results res], and
    suppose that, when the direct pass over [res] returns, every
    answer a state of [res] gave to a requested name is also the
    answer of the [BeamState] built from it (nothing is asked when the
    direct pass raises, when no name is requested or when [res] is
    empty).  Then a mapping returned by [collect_data res] is returned
    by [collect_data res'] as well; whenever the direct extraction
    from [res'] returns a mapping, both calls return it; when the
    direct pass over [res] raises, [collect_data res] ends as that
    extraction does; and when the constructor maps the states of
    [res'] to themselves, the two calls end the same way, exceptions
    included. *)
Theorem collect_data_agrees_with_normalized
    (res res' : list (loc * obj)) kws :
  result (convert_results BeamState res []) = Returns res' ->
  (returns (result (extract getattr np_reject res (valid_keys kws))) = true ->
   forall s b k v,
     s ∈ res.*2 -> k ∈ valid_keys kws ->
     BeamState s = Returns b -> getattr s k = Returns v ->
     getattr b k = Returns v) ->
  (forall m,
     result (collect_data getattr BeamState np_reject res kws) = Returns m ->
     result (collect_data getattr BeamState np_reject res' kws) = Returns m) /\
  (forall m,
     result (extract getattr np_reject res' (valid_keys kws)) = Returns m ->
     result (collect_data getattr BeamState np_reject res kws) = Returns m /\
     result (collect_data getattr BeamState np_reject res' kws) = Returns m) /\
  (forall e,
     result (extract getattr np_reject res (valid_keys kws)) = Raises e ->
     result (collect_data getattr BeamState np_reject res kws)
     = result (extract getattr np_reject res' (valid_keys kws))) /\
  (result (convert_results BeamState res' []) = Returns res' ->
   result (collect_data getattr BeamState np_reject res kws)
   = result (collect_data getattr BeamState np_reject res' kws)).
Proof.
  intros Hconv Hagree.
  assert (Hdirect : forall m,
            result (extract getattr np_reject res (valid_keys kws))
            = Returns m ->
            result (extract getattr np_reject res' (valid_keys kws))
            = Returns m).
  { intros m Hm. apply (direct_pass_agrees res res' _ m Hconv); [|exact Hm].
    apply Hagree. now rewrite Hm. }
  rewrite (result_collect_data _ _ _ res), (result_collect_data _ _ _ res'),
    Hconv.
  destruct (result (extract getattr np_reject res (valid_keys kws)))
    as [m1|e1] eqn:H1.
  - rewrite (Hdirect m1 eq_refl). split; [|split; [|split]].
    + intros m0 Hm0. exact Hm0.
    + intros m0 [= <-]. now split.
    + discriminate.
    + reflexivity.
  - split; [|split; [|split]].
    + intros m0 Hm0. now rewrite Hm0.
    + intros m0 Hm0. split; [assumption|]. now rewrite Hm0.
    + reflexivity.
    + intros Hidem. rewrite Hidem.
      now destruct (result (extract getattr np_reject res' (valid_keys kws))).
Qed.

End Specification.

(** ** The properties at work on concrete results *)

(** C5 on two raw states. *)
Lemma convert_results_normalizes_witness :
  exists out,
    result (Toy.convert Toy.raws [("latfile", PyStr "lat")]) = Returns out /\
    length out = length Toy.raws /\
    out.*1 = Toy.raws.*1 /\
    Forall2 (fun e o => Toy.BeamState e.2 = Returns o.2) Toy.raws out.
Proof.
  apply (convert_results_normalizes Toy.BeamState Toy.raws).
  reflexivity.
Defined.

(** C10 on two results that differ in their locations only. *)
Lemma collect_data_ignores_locations_witness :
  result (Toy.collect [(1, Toy.beam 3); (2, Toy.beam 4)]
            [("x0", PyBool true)]) =
  result (Toy.collect [(70, Toy.beam 3); (5, Toy.beam 4)]
            [("x0", PyBool true)]).
Proof.
  apply (collect_data_ignores_locations Toy.getattr Toy.BeamState
           Toy.np_reject).
  reflexivity.
Defined.

(** C2 on two [BeamState]s, two names requested and one set to [None]. *)
Lemma collect_data_normalized_witness :
  exists m,
    result (Toy.collect Toy.beams
              [("x0", PyBool true); ("y0", PyNone); ("pos", PyBool true)])
    = Returns m /\
    dom m = list_to_set ["x0"; "pos"] /\
    (forall k, k ∈ ["x0"; "pos"] ->
       exists a, m !! k = Some a /\
         length (items a) = 2 /\
         Forall2 (fun e v => Toy.getattr e.2 k = Returns v) Toy.beams
           (items a)) /\
    wrapped (trace (Toy.collect Toy.beams
              [("x0", PyBool true); ("y0", PyNone); ("pos", PyBool true)]))
    = [].
Proof.
  apply (collect_data_normalized Toy.getattr Toy.BeamState Toy.np_reject
           Toy.beams
           [("x0", PyBool true); ("y0", PyNone); ("pos", PyBool true)]).
  - reflexivity.
  - reflexivity.
  - intros k vs _ _. reflexivity.
Defined.

(** C3: [False], [0] and the empty string are values other than
    [None]; their names are collected. *)
Lemma falsy_options_are_collected :
  truthy (PyBool false) = false /\
  truthy (PyInt 0) = false /\
  truthy (PyStr EmptyString) = false /\
  exists m,
    result (Toy.collect Toy.beams
              [("x0", PyBool false); ("y0", PyInt 0);
               ("pos", PyStr EmptyString)])
    = Returns m /\
    m !! "x0" = Some (NdArray [3%Z; 4%Z]) /\
    m !! "y0" = Some (NdArray [3%Z; 4%Z]) /\
    m !! "pos" = Some (NdArray [3%Z; 4%Z]).
Proof.
  repeat split. eexists. split; [vm_compute; reflexivity|].
  repeat split; vm_compute; reflexivity.
Qed.

Lemma non_null_options_are_requested_witness :
  is_Some
    (({[ "x0" := NdArray [3%Z; 4%Z] ]} : gmap string (ndarray Z)) !! "x0").
Proof.
  apply (proj2 (non_null_options_are_requested Toy.getattr Toy.BeamState
                  Toy.np_reject Toy.beams [("x0", PyBool false)])
           "x0" (PyBool false)).
  - apply list_elem_of_here.
  - reflexivity.
  - discriminate.
  - vm_compute. reflexivity.
Defined.

(** C4: [y0=None] next to [x0=True]. *)
Lemma None_option_excluded_witness :
  (({[ "x0" := NdArray [3%Z; 4%Z] ]} : gmap string (ndarray Z)) !! "y0"
   = None) /\
  (forall k' v',
     (k', v') ∈ [("x0", PyBool true); ("y0", PyNone)] ->
     truthy v' = true ->
     is_Some
       (({[ "x0" := NdArray [3%Z; 4%Z] ]} : gmap string (ndarray Z)) !! k')).
Proof.
  apply (None_option_excluded Toy.getattr Toy.BeamState Toy.np_reject
           Toy.beams [("x0", PyBool true); ("y0", PyNone)] "y0").
  - refine (bool_decide_unpack _ _). vm_compute. exact I.
  - apply list_elem_of_further, list_elem_of_here.
  - vm_compute. reflexivity.
Defined.

(** C6, one run per case: the direct pass returns; the conversion
    raises [TypeError]; the second pass raises [AttributeError]; the
    second pass returns. *)
Lemma collect_data_error_policy_witness :
  result (Toy.collect Toy.beams [("x0", PyBool true)])
  = Returns {[ "x0" := NdArray [3%Z; 4%Z] ]} /\
  result (Toy.collect Toy.refused_first [("x0", PyBool true)])
  = Raises Toy.TypeError /\
  result (Toy.collect Toy.raws [("nope", PyBool true)])
  = Raises (Toy.AttributeError "nope") /\
  result (Toy.collect Toy.raws [("x0", PyBool true)])
  = Returns {[ "x0" := NdArray [5%Z; 6%Z] ]}.
Proof.
  split; [|split; [|split]].
  - apply (proj1 (collect_data_error_policy Toy.getattr Toy.BeamState
                    Toy.np_reject Toy.beams [("x0", PyBool true)])).
    vm_compute. reflexivity.
  - apply (proj1 (proj2 (collect_data_error_policy Toy.getattr Toy.BeamState
                    Toy.np_reject Toy.refused_first [("x0", PyBool true)]))
             (Toy.AttributeError "x0")).
    + vm_compute. reflexivity.
    + vm_compute. reflexivity.
  - apply (proj1 (proj2 (proj2 (collect_data_error_policy Toy.getattr
                    Toy.BeamState Toy.np_reject Toy.raws
                    [("nope", PyBool true)])))
             (Toy.AttributeError "nope")
             [(1, Toy.TObj [("x0", 5%Z)] (Some [("x0", 5%Z)]));
              (2, Toy.TObj [("x0", 6%Z)] (Some [("x0", 6%Z)]))]).
    + vm_compute. reflexivity.
    + vm_compute. reflexivity.
    + vm_compute. reflexivity.
  - apply (proj2 (proj2 (proj2 (collect_data_error_policy Toy.getattr
                    Toy.BeamState Toy.np_reject Toy.raws
                    [("x0", PyBool true)])))
             (Toy.AttributeError "x0")
             [(1, Toy.TObj [("x0", 5%Z)] (Some [("x0", 5%Z)]));
              (2, Toy.TObj [("x0", 6%Z)] (Some [("x0", 6%Z)]))]).
    + vm_compute. reflexivity.
    + vm_compute. reflexivity.
    + vm_compute. reflexivity.
Defined.

(** C7: every option [None], on states that would raise if read;
    then the empty result with [x0] requested, [y0] set to [None] and
    [pos] requested with [0]. *)
Lemma collect_data_nothing_to_collect_witness :
  Toy.collect Toy.refused_first [("x0", PyNone); ("y0", PyNone)]
  = ([], Returns ∅) /\
  (exists m,
     Toy.collect [] [("x0", PyBool true); ("y0", PyNone); ("pos", PyInt 0)]
     = ([], Returns m) /\
     m !! "x0" = Some (NdArray []) /\
     m !! "pos" = Some (NdArray []) /\
     m !! "y0" = None).
Proof.
  split.
  - apply (proj1 (collect_data_nothing_to_collect Toy.getattr Toy.BeamState
                    Toy.np_reject Toy.refused_first
                    [("x0", PyNone); ("y0", PyNone)])).
    repeat constructor.
  - destruct (proj2 (collect_data_nothing_to_collect Toy.getattr
                       Toy.BeamState Toy.np_reject Toy.refused_first
                       [("x0", PyBool true); ("y0", PyNone);
                        ("pos", PyInt 0)]))
      as (m & Hm & Hkeys & Hempty).
    exists m. split; [exact Hm|]. split; [|split].
    + apply (Hempty "x0" (PyBool true)); [|discriminate].
      apply list_elem_of_here.
    + apply (Hempty "pos" (PyInt 0)); [|discriminate].
      do 2 apply list_elem_of_further. apply list_elem_of_here.
    + apply eq_None_not_Some. intros Hs.
      apply Hkeys in Hs as (v & Hin & Hv).
      apply elem_of_cons in Hin as [Heq|Hin]; [discriminate Heq|].
      apply elem_of_cons in Hin as [Heq|Hin];
        [injection Heq as ->; contradiction|].
      apply elem_of_cons in Hin as [Heq|Hin]; [discriminate Heq|].
      now apply elem_of_nil in Hin.
Defined.

(** C9: in [mixed] the second state is a [BeamState] already and goes
    through the constructor all the same; in [refused_second] the
    third state is never reached. *)
Lemma fallback_constructor_calls_witness :
  wrapped (trace (Toy.collect Toy.mixed [("x0", PyBool true)]))
  = [Toy.raw [("x0", 5%Z)]; Toy.beam 7] /\
  wrapped (trace (Toy.collect Toy.refused_second [("x0", PyBool true)]))
  = [Toy.beam 7; Toy.junk].
Proof.
  split.
  - apply (proj1 (fallback_constructor_calls Toy.getattr Toy.BeamState
                    Toy.np_reject Toy.mixed [("x0", PyBool true)]
                    (Toy.AttributeError "x0") eq_refl)).
    reflexivity.
  - apply (proj1 (proj2 (fallback_constructor_calls Toy.getattr Toy.BeamState
                    Toy.np_reject Toy.refused_second [("x0", PyBool true)]
                    (Toy.AttributeError "x0") eq_refl))
             [Toy.beam 7] Toy.junk [Toy.raw [("x0", 5%Z)]]).
    + reflexivity.
    + reflexivity.
    + reflexivity.
Defined.

(** C9: the direct pass raises on the first state, the constructor
    refuses it, and the [BeamState] behind it is never handed to the
    constructor. *)
Lemma constructor_not_called_after_refusal :
  result (Toy.direct Toy.refused_first (valid_keys [("x0", PyBool true)]))
  = Raises (Toy.AttributeError "x0") /\
  wrapped (trace (Toy.collect Toy.refused_first [("x0", PyBool true)]))
  = [Toy.junk] /\
  Toy.beam 7 ∈ Toy.refused_first.*2 /\
  Toy.beam 7 ∉
    wrapped (trace (Toy.collect Toy.refused_first [("x0", PyBool true)])).
Proof.
  assert (Hw : wrapped (trace (Toy.collect Toy.refused_first
                                 [("x0", PyBool true)])) = [Toy.junk])
    by (vm_compute; reflexivity).
  split; [vm_compute; reflexivity|]. split; [exact Hw|]. split.
  - apply list_elem_of_further, list_elem_of_here.
  - rewrite Hw. intros Hin. apply list_elem_of_singleton in Hin.
    discriminate Hin.
Qed.

(** C1, four runs.  A raw state that answers [pos] as its
    [BeamState] does: same mapping.  Two raw states that answer
    nothing: the fallback returns what collecting from the converted
    result returns.  The state of the counterexample with no name
    requested: same (empty) mapping.  A name nobody answers: the same
    exception. *)
Lemma collect_data_agrees_with_normalized_witness :
  (result (Toy.collect [(1, Toy.raw_agreeing)] [("pos", PyBool true)])
   = Returns {[ "pos" := NdArray [2%Z] ]} /\
   result (Toy.collect
             [(1, Toy.TObj [("pos", 2%Z); ("x0", 5%Z)]
                    (Some [("pos", 2%Z); ("x0", 5%Z)]))]
             [("pos", PyBool true)])
   = Returns {[ "pos" := NdArray [2%Z] ]}) /\
  (result (Toy.collect Toy.raws [("x0", PyBool true)])
   = Returns {[ "x0" := NdArray [5%Z; 6%Z] ]} /\
   result (Toy.collect
             [(1, Toy.TObj [("x0", 5%Z)] (Some [("x0", 5%Z)]));
              (2, Toy.TObj [("x0", 6%Z)] (Some [("x0", 6%Z)]))]
             [("x0", PyBool true)])
   = Returns {[ "x0" := NdArray [5%Z; 6%Z] ]}) /\
  result (Toy.collect [(1, Toy.raw_with_pos)] [("pos", PyNone)])
  = result (Toy.collect
              [(1, Toy.TObj [("pos", 2%Z)] (Some [("pos", 2%Z)]))]
              [("pos", PyNone)]) /\
  result (Toy.collect Toy.raws [("nope", PyBool true)])
  = result (Toy.collect
              [(1, Toy.TObj [("x0", 5%Z)] (Some [("x0", 5%Z)]));
               (2, Toy.TObj [("x0", 6%Z)] (Some [("x0", 6%Z)]))]
              [("nope", PyBool true)]).
Proof.
  split; [|split; [|split]].
  - apply (proj1 (proj2 (collect_data_agrees_with_normalized
                    Toy.getattr Toy.BeamState Toy.np_reject
                    [(1, Toy.raw_agreeing)]
                    [(1, Toy.TObj [("pos", 2%Z); ("x0", 5%Z)]
                           (Some [("pos", 2%Z); ("x0", 5%Z)]))]
                    [("pos", PyBool true)] eq_refl
                    ltac:(intros _ s b k v Hs Hk Hb Hg;
                          apply list_elem_of_singleton in Hs;
                          apply list_elem_of_singleton in Hk;
                          subst s k; injection Hb as <-;
                          vm_compute in Hg; vm_compute; exact Hg)))).
    vm_compute. reflexivity.
  - apply (proj1 (proj2 (collect_data_agrees_with_normalized
                    Toy.getattr Toy.BeamState Toy.np_reject Toy.raws
                    [(1, Toy.TObj [("x0", 5%Z)] (Some [("x0", 5%Z)]));
                     (2, Toy.TObj [("x0", 6%Z)] (Some [("x0", 6%Z)]))]
                    [("x0", PyBool true)] eq_refl
                    ltac:(intros Hret; vm_compute in Hret;
                          discriminate Hret)))).
    vm_compute. reflexivity.
  - apply (proj2 (proj2 (proj2 (collect_data_agrees_with_normalized
                    Toy.getattr Toy.BeamState Toy.np_reject
                    [(1, Toy.raw_with_pos)]
                    [(1, Toy.TObj [("pos", 2%Z)] (Some [("pos", 2%Z)]))]
                    [("pos", PyNone)] eq_refl
                    ltac:(intros _ s b k v _ Hk;
                          apply elem_of_nil in Hk; destruct Hk))))).
    reflexivity.
  - apply (proj2 (proj2 (proj2 (collect_data_agrees_with_normalized
                    Toy.getattr Toy.BeamState Toy.np_reject Toy.raws
                    [(1, Toy.TObj [("x0", 5%Z)] (Some [("x0", 5%Z)]));
                     (2, Toy.TObj [("x0", 6%Z)] (Some [("x0", 6%Z)]))]
                    [("nope", PyBool true)] eq_refl
                    ltac:(intros Hret; vm_compute in Hret;
                          discriminate Hret))))).
    reflexivity.
Defined.

(** C1: a raw state that answers [pos] itself.  The constructor takes
    it, the direct pass returns what the raw state answers, and
    collecting from the converted result returns what the [BeamState]
    answers: two different mappings. *)
Lemma direct_access_on_raw_differs :
  result (Toy.convert [(1, Toy.raw_with_pos)] [])
  = Returns [(1, Toy.TObj [("pos", 2%Z)] (Some [("pos", 2%Z)]))] /\
  result (Toy.collect [(1, Toy.raw_with_pos)] [("pos", PyBool true)])
  = Returns {[ "pos" := NdArray [1%Z] ]} /\
  result (Toy.collect [(1, Toy.TObj [("pos", 2%Z)] (Some [("pos", 2%Z)]))]
            [("pos", PyBool true)])
  = Returns {[ "pos" := NdArray [2%Z] ]} /\
  result (Toy.collect [(1, Toy.raw_with_pos)] [("pos", PyBool true)])
  <> result (Toy.collect
               [(1, Toy.TObj [("pos", 2%Z)] (Some [("pos", 2%Z)]))]
               [("pos", PyBool true)]).
Proof.
  split; [reflexivity|]. split; [vm_compute; reflexivity|].
  split; [vm_compute; reflexivity|].
  vm_compute. intros H. discriminate H.
Qed.

(** C1: why only returned mappings are compared when nothing is known
    of the constructor on its own [BeamState]s.  With a constructor
    whose [BeamState]s answer [late] once wrapped again, collecting
    from the raw state raises, while collecting from the converted
    result converts it a second time and returns a mapping. *)
Lemma second_conversion_can_answer :
  result (convert_results Toy.BeamState_late [(1, Toy.raw [])] [])
  = Returns [(1, Toy.TObj [] (Some [("late", 0%Z)]))] /\
  result (collect_data Toy.getattr Toy.BeamState_late Toy.np_reject
            [(1, Toy.raw [])] [("late", PyBool true)])
  = Raises (Toy.AttributeError "late") /\
  result (collect_data Toy.getattr Toy.BeamState_late Toy.np_reject
            [(1, Toy.TObj [] (Some [("late", 0%Z)]))]
            [("late", PyBool true)])
  = Returns {[ "late" := NdArray [0%Z] ]}.
Proof.
  split; [reflexivity|]. split; vm_compute; reflexivity.
Qed.

(** ** Further facts: composition, errors, call counts *)

Section TracedLaws.

Context {Ev E : Type}.

Lemma bind_ret_l {A B} (a : A) (f : A -> M Ev E B) :
  (x <- ret a ;; f x) = f a.
Proof. unfold bind, ret. now destruct (f a). Qed.

Lemma bind_ret_r {A} (m : M Ev E A) : (x <- m ;; ret x) = m.
Proof. destruct m as [t [a|e]]; cbn; [now rewrite app_nil_r|reflexivity]. Qed.

Lemma bind_assoc {A B C} (m : M Ev E A)
    (f : A -> M Ev E B) (g : B -> M Ev E C) :
  (y <- (x <- m ;; f x) ;; g y) = (x <- m ;; y <- f x ;; g y).
Proof.
  destruct m as [t [a|e]]; cbn; [|reflexivity].
  destruct (f a) as [t' [b|e]]; cbn; [|reflexivity].
  destruct (g b) as [t'' r]; cbn. now rewrite app_assoc.
Qed.

Lemma bind_ext {A B} (m : M Ev E A) (f g : A -> M Ev E B) :
  (forall a, f a = g a) -> (x <- m ;; f x) = (x <- m ;; g x).
Proof. intros H. destruct m as [t [a|e]]; cbn; [now rewrite H|reflexivity]. Qed.

(** A comprehension over a concatenation runs the two parts one after
    the other; the second part only if the first returned. *)
Lemma list_comp_app {A B} (f : A -> M Ev E B) (l1 l2 : list A) :
  list_comp f (l1 ++ l2) =
  (o1 <- list_comp f l1 ;; o2 <- list_comp f l2 ;; ret (o1 ++ o2)).
Proof.
  induction l1 as [|x l1 IH]; cbn [list_comp app].
  - rewrite bind_ret_l. symmetry. apply bind_ret_r.
  - rewrite bind_assoc. apply bind_ext. intros y.
    rewrite IH, !bind_assoc. apply bind_ext. intros o1.
    rewrite bind_assoc, bind_ret_l. apply bind_ext. intros o2.
    now rewrite bind_ret_l.
Qed.

(** An exception of a traversal is the exception of one of its items,
    and of the first item that raises. *)
Lemma traverse_Raises {A B} (g : A -> outcome E B) l e :
  traverse g l = Raises e -> exists x, x ∈ l /\ g x = Raises e.
Proof.
  induction l as [|x xs IH]; cbn; [discriminate|].
  destruct (g x) as [y|e'] eqn:Hx.
  - destruct (traverse g xs) as [ys|e'']; [discriminate|].
    intros [= ->]. destruct (IH eq_refl) as (z & Hz & Hgz).
    exists z. split; [now right|assumption].
  - intros [= ->]. exists x. split; [left|assumption].
Qed.

Lemma traverse_first_Raises {A B} (g : A -> outcome E B) pre x post e :
  forallb (fun y => returns (g y)) pre = true ->
  g x = Raises e ->
  traverse g (pre ++ x :: post) = Raises e.
Proof.
  intros Hpre Hx. induction pre as [|p pre IH]; cbn.
  - now rewrite Hx.
  - cbn in Hpre. apply andb_prop in Hpre as [Hp Hpre].
    destruct (g p); [|discriminate]. now rewrite (IH Hpre).
Qed.

Lemma dict_comp_Raises {V} (f : string -> M Ev E V) keys d e :
  result (dict_comp f keys d) = Raises e ->
  exists k, k ∈ keys /\ result (f k) = Raises e.
Proof.
  revert d. induction keys as [|k ks IH]; intros d; cbn [dict_comp].
  - discriminate.
  - rewrite result_bind. destruct (result (f k)) as [v|e'] eqn:Hk.
    + intros H. destruct (IH _ H) as (k' & Hin & Hk').
      exists k'. split; [now right|assumption].
    + intros [= ->]. exists k. split; [left|assumption].
Qed.

End TracedLaws.

Lemma Forall2_compose {A B C} (P : A -> B -> Prop) (Q : B -> C -> Prop)
    (l1 : list A) (l2 : list B) (l3 : list C) :
  Forall2 P l1 l2 -> Forall2 Q l2 l3 ->
  Forall2 (fun x z => exists y, P x y /\ Q y z) l1 l3.
Proof.
  intros H12. revert l3. induction H12 as [|x y l1 l2 Hxy _ IH]; intros l3 H23.
  - inversion H23. constructor.
  - inversion H23 as [|? z ? l3' Hyz Hrest]; subst.
    constructor; [eauto|]. now apply IH.
Qed.

Section ConvertResultsFacts.

Context {loc obj exn : Type}.
Variable BeamState : obj -> outcome exn obj.

(** X1. When the constructor takes the states of [pre] and raises [e]
    on the next state [s], [convert_results] raises [e]; the
    constructor has been called on the states of [pre] and on [s], and
    on no state behind [s]. *)
Theorem convert_results_first_refusal
    (pre post : list (loc * obj)) (i : loc) (s : obj) kws e :
  forallb (accepted BeamState) pre.*2 = true ->
  BeamState s = Raises e ->
  result (convert_results BeamState (pre ++ (i, s) :: post) kws) = Raises e /\
  wrapped (trace (convert_results BeamState (pre ++ (i, s) :: post) kws))
  = pre.*2 ++ [s].
Proof.
  intros Hpre Hs. split.
  - rewrite result_convert_results, fmap_app. cbn [fmap list_fmap snd].
    now rewrite (traverse_first_Raises BeamState pre.*2 s post.*2 e Hpre Hs).
  - apply wrapped_convert_results_refused with (post := post.*2).
    + now rewrite fmap_app.
    + assumption.
    + unfold accepted. now rewrite Hs.
Qed.

(** X2. Converting a concatenation is converting the first part, then
    the second, and putting the two lists together: same calls in the
    same order, same outcome.  When the first part raises, nothing of
    the second part is read. *)
Theorem convert_results_app (res1 res2 : list (loc * obj)) kws :
  convert_results BeamState (res1 ++ res2) kws =
  (out1 <- convert_results BeamState res1 kws ;;
   out2 <- convert_results BeamState res2 kws ;;
   ret (out1 ++ out2)).
Proof. unfold convert_results. apply list_comp_app. Qed.

End ConvertResultsFacts.

Section CollectDataFacts.

Context {loc obj attrval exn : Type}.
Variable getattr : obj -> string -> outcome exn attrval.
Variable BeamState : obj -> outcome exn obj.
Variable np_reject : list attrval -> option exn.

Lemma valid_keys_app (kws1 kws2 : list (string * pyval)) :
  valid_keys (kws1 ++ kws2) = valid_keys kws1 ++ valid_keys kws2.
Proof.
  induction kws1 as [|[k v] kws1 IH]; [reflexivity|].
  cbn. rewrite IH. now destruct (is_None v).
Qed.

Lemma valid_keys_Permutation (kws1 kws2 : list (string * pyval)) :
  kws1 ≡ₚ kws2 -> valid_keys kws1 ≡ₚ valid_keys kws2.
Proof.
  induction 1 as [|[k v] l1 l2 _ IH|[k1 v1] [k2 v2] l|l1 l2 l3 _ IH1 _ IH2].
  - reflexivity.
  - cbn. destruct (is_None v); [assumption|now constructor].
  - cbn. destruct (is_None v1), (is_None v2); try reflexivity.
    apply perm_swap.
  - now transitivity (valid_keys l2).
Qed.

(** The direct pass returns exactly when every requested column can
    be built. *)
Lemma extract_returns (res : list (loc * obj)) keys :
  returns (result (extract getattr np_reject res keys)) =
  forallb (fun k => returns (result (column getattr np_reject res k))) keys.
Proof. apply dict_comp_returns. Qed.

Lemma extract_Permutation (res : list (loc * obj)) keys1 keys2 m :
  keys1 ≡ₚ keys2 ->
  result (extract getattr np_reject res keys1) = Returns m ->
  result (extract getattr np_reject res keys2) = Returns m.
Proof.
  intros Hp Hm.
  assert (Hin : forall k, k ∈ keys1 <-> k ∈ keys2).
  { intros k. now rewrite Hp. }
  assert (Hret : returns (result (extract getattr np_reject res keys2)) = true).
  { pose proof (extract_returns res keys1) as H1. rewrite Hm in H1.
    symmetry in H1. rewrite forallb_forall in H1.
    rewrite extract_returns. apply forallb_forall. intros k Hk.
    apply H1. apply list_elem_of_In, Hin, list_elem_of_In, Hk. }
  destruct (result (extract getattr np_reject res keys2)) as [m2|e] eqn:Hm2;
    [|discriminate].
  f_equal. apply map_eq. intros k.
  rewrite (dict_comp_lookup _ _ _ _ k Hm), (dict_comp_lookup _ _ _ _ k Hm2).
  destruct (decide (k ∈ keys1)) as [H1|H1], (decide (k ∈ keys2)) as [H2|H2];
    try reflexivity.
  - exfalso. now apply H2, Hin.
  - exfalso. now apply H1, Hin.
Qed.

Lemma extract_Permutation_raises (res : list (loc * obj)) keys1 keys2 :
  keys1 ≡ₚ keys2 ->
  returns (result (extract getattr np_reject res keys1)) =
  returns (result (extract getattr np_reject res keys2)).
Proof.
  intros Hp. rewrite !extract_returns.
  apply eq_true_iff_eq. rewrite !forallb_forall.
  split; intros H k Hk; apply H;
    apply list_elem_of_In; apply list_elem_of_In in Hk.
  - now rewrite Hp.
  - now rewrite <- Hp.
Qed.

(** X3. States that answer the requested names themselves are read
    as they are, [BeamState]s or not: each array holds, in input
    order, the attribute of the states of the input, and the
    constructor is never called. *)
Theorem collect_data_direct_access (res : list (loc * obj)) kws :
  forallb (fun k => forallb (fun s => returns (getattr s k)) res.*2)
    (valid_keys kws) = true ->
  (forall k vs, k ∈ valid_keys kws ->
     traverse (fun s => getattr s k) res.*2 = Returns vs ->
     np_reject vs = None) ->
  exists m,
    result (collect_data getattr BeamState np_reject res kws) = Returns m /\
    (forall k, k ∈ valid_keys kws ->
       exists a, m !! k = Some a /\
         Forall2 (fun e v => getattr e.2 k = Returns v) res (items a)) /\
    wrapped (trace (collect_data getattr BeamState np_reject res kws)) = [].
Proof.
  intros Hans Hnp.
  assert (Hret : returns (result (extract getattr np_reject res
                                    (valid_keys kws))) = true).
  { rewrite extract_returns. apply forallb_forall. intros k Hk.
    rewrite forallb_forall in Hans. specialize (Hans k Hk).
    rewrite <- traverse_returns in Hans. rewrite result_column.
    destruct (traverse (fun s => getattr s k) res.*2) as [vs|e] eqn:Hvs;
      [|discriminate].
    pose proof (Hnp k vs (proj2 (list_elem_of_In _ _) Hk) Hvs) as Hok.
    unfold np_array. destruct vs; [reflexivity|]. now rewrite Hok. }
  destruct (result (extract getattr np_reject res (valid_keys kws)))
    as [m|e] eqn:Hm; [|discriminate].
  exists m. rewrite result_collect_data, wrapped_collect_data, Hm.
  split; [reflexivity|]. split; [|reflexivity].
  intros k Hk.
  destruct (proj2 (extract_is_Some _ _ _ _ _ k Hm) Hk) as [a Ha].
  exists a. split; [assumption|].
  apply (extract_lookup _ _ _ _ _ _ _ Hm) in Ha as [_ Ha].
  now apply column_Returns in Ha.
Qed.

(** X4. When the direct pass raises and [collect_data] still returns,
    every item of every array comes from the [BeamState] built from
    the state at that position: also at the positions whose state
    answered the name itself. *)
Theorem collect_data_fallback_content (res : list (loc * obj)) kws e m :
  result (extract getattr np_reject res (valid_keys kws)) = Raises e ->
  result (collect_data getattr BeamState np_reject res kws) = Returns m ->
  forall k, k ∈ valid_keys kws ->
    exists a, m !! k = Some a /\
      Forall2 (fun en v =>
                 exists b, BeamState en.2 = Returns b /\
                           getattr b k = Returns v)
        res (items a).
Proof.
  intros Hfirst. rewrite result_collect_data, Hfirst.
  destruct (result (convert_results BeamState res [])) as [res'|e2] eqn:Hconv;
    [|discriminate].
  intros Hm k Hk.
  destruct (proj2 (extract_is_Some _ _ _ _ _ k Hm) Hk) as [a Ha].
  exists a. split; [assumption|].
  apply (extract_lookup _ _ _ _ _ _ _ Hm) in Ha as [_ Ha].
  apply column_Returns in Ha. apply convert_results_Returns in Hconv.
  eapply Forall2_impl; [exact (Forall2_compose _ _ _ _ _ Hconv Ha)|].
  intros [i s] v ([i' b] & [_ Hb] & Hv). cbn in *. eauto.
Qed.

(** X5. Whatever path was taken, a returned mapping has the requested
    names as its keys and, under each of them, an array with one item
    per entry of the input. *)
Theorem collect_data_shape (res : list (loc * obj)) kws m :
  result (collect_data getattr BeamState np_reject res kws) = Returns m ->
  dom m = list_to_set (valid_keys kws) /\
  (forall k a, m !! k = Some a -> length (items a) = length res).
Proof.
  rewrite result_collect_data.
  destruct (result (extract getattr np_reject res (valid_keys kws)))
    as [m1|e1] eqn:H1.
  - intros [= <-]. split; [exact (extract_dom _ _ _ _ _ H1)|].
    intros k a Ha. apply (extract_lookup _ _ _ _ _ _ _ H1) in Ha as [_ Ha].
    apply column_Returns in Ha. symmetry. eapply Forall2_length, Ha.
  - destruct (result (convert_results BeamState res [])) as [res'|e2] eqn:Hc;
      [|discriminate].
    intros H2. split; [exact (extract_dom _ _ _ _ _ H2)|].
    intros k a Ha. apply (extract_lookup _ _ _ _ _ _ _ H2) in Ha as [_ Ha].
    apply column_Returns, Forall2_length in Ha.
    apply convert_results_Returns, Forall2_length in Hc. lia.
Qed.

(** X6. The order of the keyword options does not show in a returned
    mapping: when [collect_data] returns a mapping for some order of
    the options, it returns the same mapping for every other order. *)
Theorem collect_data_option_order (res : list (loc * obj)) kws1 kws2 m :
  kws1 ≡ₚ kws2 ->
  result (collect_data getattr BeamState np_reject res kws1) = Returns m ->
  result (collect_data getattr BeamState np_reject res kws2) = Returns m.
Proof.
  intros Hp%valid_keys_Permutation. rewrite !result_collect_data.
  pose proof (extract_Permutation_raises res _ _ Hp) as Hsame.
  destruct (result (extract getattr np_reject res (valid_keys kws1)))
    as [m1|e1] eqn:H1.
  - intros [= <-]. now rewrite (extract_Permutation res _ _ m1 Hp H1).
  - destruct (result (extract getattr np_reject res (valid_keys kws2)));
      [discriminate|].
    destruct (result (convert_results BeamState res [])) as [res'|e2];
      [|discriminate].
    now apply extract_Permutation.
Qed.

(** X7. An option set to [None] can be added or dropped anywhere, and
    a value other than [None] can be replaced by any other such value,
    without changing the calls made or the outcome. *)
Theorem collect_data_option_values (res : list (loc * obj)) kws1 kws2 k :
  collect_data getattr BeamState np_reject res (kws1 ++ (k, PyNone) :: kws2)
  = collect_data getattr BeamState np_reject res (kws1 ++ kws2) /\
  (forall v v', v <> PyNone -> v' <> PyNone ->
     collect_data getattr BeamState np_reject res (kws1 ++ (k, v) :: kws2)
     = collect_data getattr BeamState np_reject res (kws1 ++ (k, v') :: kws2)).
Proof.
  unfold collect_data. split.
  - now rewrite !valid_keys_app.
  - intros v v' Hv Hv'. rewrite !valid_keys_app. cbn [valid_keys].
    destruct v, v'; try contradiction; reflexivity.
Qed.

End CollectDataFacts.

Section CollectDataErrors.

Context {loc obj attrval exn : Type}.
Variable getattr : obj -> string -> outcome exn attrval.
Variable BeamState : obj -> outcome exn obj.
Variable np_reject : list attrval -> option exn.

Lemma existsb_not_forallb {A} (p : A -> bool) (l : list A) :
  existsb (fun x => negb (p x)) l = true -> forallb p l = false.
Proof.
  induction l as [|x xs IH]; cbn; [discriminate|].
  destruct (p x); cbn; [exact IH|reflexivity].
Qed.

(** A column over states one of which does not answer the name raises. *)
Lemma column_raises (res : list (loc * obj)) k :
  existsb (fun s => negb (returns (getattr s k))) res.*2 = true ->
  returns (result (column getattr np_reject res k)) = false.
Proof.
  intros Hex. apply existsb_not_forallb in Hex.
  rewrite <- traverse_returns in Hex. rewrite result_column.
  now destruct (traverse (fun s => getattr s k) res.*2).
Qed.

Lemma extract_raises (res : list (loc * obj)) keys k :
  k ∈ keys ->
  returns (result (column getattr np_reject res k)) = false ->
  returns (result (extract getattr np_reject res keys)) = false.
Proof.
  intros Hin Hk. unfold extract. rewrite dict_comp_returns.
  apply not_true_is_false. intros Hall. rewrite forallb_forall in Hall.
  apply list_elem_of_In in Hin. rewrite (Hall k Hin) in Hk. discriminate.
Qed.

(** X8. A requested name that some state of the input does not
    answer, and that is not answered either by the [BeamState] built
    from some state of the input (or that state cannot be built),
    makes [collect_data] raise. *)
Theorem collect_data_missing_attribute (res : list (loc * obj)) kws k :
  k ∈ valid_keys kws ->
  existsb (fun s => negb (returns (getattr s k))) res.*2 = true ->
  existsb (fun s => match BeamState s with
                    | Returns b => negb (returns (getattr b k))
                    | Raises _ => true
                    end) res.*2 = true ->
  returns (result (collect_data getattr BeamState np_reject res kws)) = false.
Proof.
  intros Hk Hraw Hbuilt. rewrite result_collect_data.
  pose proof (extract_raises res _ k Hk (column_raises res k Hraw)) as H1.
  destruct (result (extract getattr np_reject res (valid_keys kws)));
    [discriminate|].
  destruct (result (convert_results BeamState res [])) as [res'|e2] eqn:Hc;
    [|reflexivity].
  apply (extract_raises res' _ k Hk), column_raises.
  apply convert_results_Returns in Hc.
  clear -Hc Hbuilt. induction Hc as [|[i s] [i' b] res res' [_ Hb] _ IH].
  - discriminate.
  - cbn in *. rewrite Hb in Hbuilt.
    destruct (returns (getattr b k)); cbn in *; [now apply IH|reflexivity].
Qed.

(** X9. An exception that leaves [collect_data] was raised by the
    constructor on a state of the input, or, after a conversion that
    returned, by the reading of a requested name on a converted state
    or by [numpy.array] on a column of the converted result. *)
Theorem collect_data_exception_origin (res : list (loc * obj)) kws e :
  result (collect_data getattr BeamState np_reject res kws) = Raises e ->
  (exists s, s ∈ res.*2 /\ BeamState s = Raises e) \/
  (exists res' k,
     result (convert_results BeamState res []) = Returns res' /\
     k ∈ valid_keys kws /\
     ((exists b, b ∈ res'.*2 /\ getattr b k = Raises e) \/
      (exists vs, traverse (fun b => getattr b k) res'.*2 = Returns vs /\
                  np_reject vs = Some e))).
Proof.
  rewrite result_collect_data.
  destruct (result (extract getattr np_reject res (valid_keys kws)));
    [discriminate|].
  destruct (result (convert_results BeamState res [])) as [res'|e2] eqn:Hc.
  - intros H2. right. exists res'.
    apply dict_comp_Raises in H2 as (k & Hk & Hcol).
    exists k. split; [reflexivity|]. split; [assumption|].
    rewrite result_column in Hcol.
    destruct (traverse (fun s => getattr s k) res'.*2) as [vs|e'] eqn:Hvs.
    + right. exists vs. split; [reflexivity|].
      unfold np_array in Hcol. destruct vs; [discriminate|].
      destruct (np_reject _); [|discriminate]. cbn in Hcol. congruence.
    + left. injection Hcol as ->. now apply traverse_Raises in Hvs.
  - intros [= ->]. left. rewrite result_convert_results in Hc.
    destruct (traverse BeamState res.*2) as [bs|e'] eqn:Hbs; [discriminate|].
    injection Hc as ->. now apply traverse_Raises in Hbs.
Qed.

(** *** Counting the calls *)

Lemma attr_reads_app (t1 t2 : list (event loc obj)) :
  attr_reads (t1 ++ t2) = attr_reads t1 ++ attr_reads t2.
Proof. apply omap_app. Qed.

Lemma attr_reads_convert_results (res : list (loc * obj)) kws :
  attr_reads (trace (convert_results BeamState res kws)) = [].
Proof.
  assert (H : Forall (fun ev : event loc obj =>
                        match ev with EvGetattr _ _ => False | _ => True end)
                (trace (convert_results BeamState res kws))).
  { unfold convert_results. apply trace_list_comp_Forall. intros [i s].
    apply trace_bind_Forall; [repeat constructor|]. intros _.
    apply trace_bind_Forall; [repeat constructor|]. intros b. constructor. }
  induction H as [|ev t Hev _ IH]; [reflexivity|].
  destruct ev; cbn; [exact IH|contradiction|exact IH].
Qed.

Lemma constructor_calls_prefix (sts : list obj) :
  constructor_calls BeamState sts `prefix_of` sts.
Proof.
  induction sts as [|s sts IH]; cbn; [apply prefix_nil|].
  apply prefix_cons. destruct (accepted BeamState s); [exact IH|].
  apply prefix_nil.
Qed.

(** One column reads the states in order, each one once, and stops
    behind the first that raises; it reads them all when it returns. *)
Lemma column_reads (res : list (loc * obj)) k :
  attr_reads (trace (column getattr np_reject res k))
    `prefix_of` map (fun s => (s, k)) res.*2 /\
  (returns (result (column getattr np_reject res k)) = true ->
   attr_reads (trace (column getattr np_reject res k))
   = map (fun s => (s, k)) res.*2).
Proof.
  unfold column. rewrite trace_bind, result_bind.
  set (f := fun '(i, s) =>
              _ <- call (EvEntry i s) (Returns tt) ;;
              call (Ev := event loc obj) (EvGetattr s k) (getattr s k)).
  assert (HL : attr_reads (trace (list_comp f res))
                 `prefix_of` map (fun s => (s, k)) res.*2 /\
               (returns (result (list_comp f res)) = true ->
                attr_reads (trace (list_comp f res))
                = map (fun s => (s, k)) res.*2)).
  { induction res as [|[i s] res [IHle IHeq]]; [now split|].
    cbn [list_comp fmap list_fmap map snd].
    rewrite trace_bind, result_bind.
    change (f (i, s)) with
      (([EvEntry i s; EvGetattr s k], getattr s k)
       : M (event loc obj) exn attrval).
    cbn [result trace fst snd].
    destruct (getattr s k) as [v|e].
    - rewrite trace_bind_ret, result_bind, attr_reads_app.
      change (attr_reads [EvEntry i s; EvGetattr (loc := loc) s k])
        with [(s, k)].
      cbn [app]. split; [now apply prefix_cons|].
      intros Hr. f_equal. apply IHeq.
      now destruct (result (list_comp f res)).
    - change (attr_reads [EvEntry i s; EvGetattr (loc := loc) s k])
        with [(s, k)].
      split; [apply prefix_cons, prefix_nil|discriminate]. }
  destruct HL as [Hle Heq].
  destruct (result (list_comp f res)) as [vs|e] eqn:HL.
  - assert (Hnp : trace (np_array (loc := loc) (obj := obj) np_reject vs) = []).
    { unfold np_array. destruct vs; [reflexivity|].
      now destruct (np_reject _). }
    rewrite Hnp, app_nil_r. split; [assumption|]. intros _. now apply Heq.
  - split; [assumption|discriminate].
Qed.

(** One pass reads name after name, and stops with the first column
    that raises. *)
Lemma extract_reads (res : list (loc * obj)) keys :
  attr_reads (trace (extract getattr np_reject res keys))
    `prefix_of` reads_of_pass res.*2 keys /\
  (returns (result (extract getattr np_reject res keys)) = true ->
   attr_reads (trace (extract getattr np_reject res keys))
   = reads_of_pass res.*2 keys).
Proof.
  unfold extract. generalize (∅ : gmap string (ndarray attrval)).
  induction keys as [|k ks IH]; intros d; [now split|].
  cbn [dict_comp reads_of_pass flat_map]. fold (reads_of_pass res.*2 ks).
  rewrite trace_bind, result_bind.
  destruct (column_reads res k) as [Hle Heq].
  destruct (result (column getattr np_reject res k)) as [a|e].
  - destruct (IH (<[k := a]> d)) as [IHle IHeq].
    rewrite attr_reads_app, (Heq eq_refl). split.
    + now apply prefix_app.
    + intros Hr. now rewrite (IHeq Hr).
  - split; [now apply prefix_app_r|discriminate].
Qed.

(** X10. The constructor is called on the states of the input in
    order, each entry at most once: its calls are a prefix of the list
    of states.  When the direct pass returns, the constructor is not
    called, and the attribute reads are exactly one complete pass:
    for each requested name in order, every entry once, in order.
    When the direct pass raises, the reads are a prefix of such a pass
    over the input followed by a prefix of such a pass over the
    converted result (by nothing when the conversion raises). *)
Theorem collect_data_calls (res : list (loc * obj)) kws :
  wrapped (trace (collect_data getattr BeamState np_reject res kws))
    `prefix_of` res.*2 /\
  (returns (result (extract getattr np_reject res (valid_keys kws))) = true ->
   wrapped (trace (collect_data getattr BeamState np_reject res kws)) = [] /\
   attr_reads (trace (collect_data getattr BeamState np_reject res kws))
   = reads_of_pass res.*2 (valid_keys kws)) /\
  (returns (result (extract getattr np_reject res (valid_keys kws))) = false ->
   exists p1 p2,
     attr_reads (trace (collect_data getattr BeamState np_reject res kws))
     = p1 ++ p2 /\
     p1 `prefix_of` reads_of_pass res.*2 (valid_keys kws) /\
     match result (convert_results BeamState res []) with
     | Returns res' => p2 `prefix_of` reads_of_pass res'.*2 (valid_keys kws)
     | Raises _ => p2 = []
     end).
Proof.
  rewrite wrapped_collect_data.
  unfold collect_data at 1 2. cbv zeta. rewrite trace_try_except.
  destruct (extract_reads res (valid_keys kws)) as [H1le H1eq].
  destruct (result (extract getattr np_reject res (valid_keys kws)))
    as [m|e] eqn:H1.
  - split; [apply prefix_nil|]. split; [|discriminate].
    intros _. split; [reflexivity|]. now apply H1eq.
  - split; [|split; [discriminate|]].
    + rewrite wrapped_convert_results. apply constructor_calls_prefix.
    + intros _.
      exists (attr_reads (trace (extract getattr np_reject res
                                   (valid_keys kws)))).
      rewrite attr_reads_app, trace_bind.
      destruct (result (convert_results BeamState res [])) as [res'|e2].
      * exists (attr_reads (trace (extract getattr np_reject res'
                                     (valid_keys kws)))).
        rewrite attr_reads_app, attr_reads_convert_results. cbn [app].
        split; [reflexivity|]. split; [assumption|].
        apply (extract_reads res' (valid_keys kws)).
      * exists []. rewrite attr_reads_convert_results.
        split; [reflexivity|]. split; [assumption|reflexivity].
Qed.

End CollectDataErrors.

(** ** The further facts at work on concrete results *)

(** X1 on a result whose second state is refused. *)
Lemma convert_results_first_refusal_witness :
  result (Toy.convert Toy.refused_second []) = Raises Toy.TypeError /\
  wrapped (trace (Toy.convert Toy.refused_second []))
  = [Toy.beam 7; Toy.junk].
Proof.
  apply (convert_results_first_refusal Toy.BeamState
           [(1, Toy.beam 7)] [(3, Toy.raw [("x0", 5%Z)])] 2 Toy.junk []
           Toy.TypeError).
  - reflexivity.
  - reflexivity.
Defined.

(** X3 on a raw state that answers [pos] itself. *)
Lemma collect_data_direct_access_witness :
  exists m,
    result (Toy.collect [(1, Toy.raw_with_pos)] [("pos", PyBool true)])
    = Returns m /\
    (forall k, k ∈ ["pos"] ->
       exists a, m !! k = Some a /\
         Forall2 (fun e v => Toy.getattr e.2 k = Returns v)
           [(1, Toy.raw_with_pos)] (items a)) /\
    wrapped (trace (Toy.collect [(1, Toy.raw_with_pos)]
                      [("pos", PyBool true)])) = [].
Proof.
  apply (collect_data_direct_access Toy.getattr Toy.BeamState Toy.np_reject
           [(1, Toy.raw_with_pos)] [("pos", PyBool true)]).
  - reflexivity.
  - intros k vs _ _. reflexivity.
Defined.

(** X4: the first state answers [x0] itself with [1], the second is
    raw; the array holds [2], what the [BeamState] of the first state
    answers, and not [1]. *)
Lemma collect_data_fallback_content_witness :
  exists a,
    ({[ "x0" := NdArray [2%Z; 5%Z] ]} : gmap string (ndarray Z)) !! "x0"
    = Some a /\
    Forall2 (fun en v =>
               exists b, Toy.BeamState en.2 = Returns b /\
                         Toy.getattr b "x0" = Returns v)
      [(1, Toy.TObj [("x0", 1%Z)] (Some [("x0", 2%Z)]));
       (2, Toy.raw [("x0", 5%Z)])]
      (items a).
Proof.
  apply (collect_data_fallback_content Toy.getattr Toy.BeamState
           Toy.np_reject
           [(1, Toy.TObj [("x0", 1%Z)] (Some [("x0", 2%Z)]));
            (2, Toy.raw [("x0", 5%Z)])]
           [("x0", PyBool true)] (Toy.AttributeError "x0")).
  - vm_compute. reflexivity.
  - vm_compute. reflexivity.
  - apply list_elem_of_here.
Defined.

(** X5 on the mapping returned for two raw states. *)
Lemma collect_data_shape_witness :
  dom ({[ "x0" := NdArray [5%Z; 6%Z] ]} : gmap string (ndarray Z))
  = list_to_set ["x0"] /\
  (forall k a,
     ({[ "x0" := NdArray [5%Z; 6%Z] ]} : gmap string (ndarray Z)) !! k
     = Some a ->
     length (items a) = 2).
Proof.
  apply (collect_data_shape Toy.getattr Toy.BeamState Toy.np_reject
           Toy.raws [("x0", PyBool true); ("y0", PyNone)]).
  vm_compute. reflexivity.
Defined.

(** X6: [x0] and [y0] requested in the two orders. *)
Lemma collect_data_option_order_witness :
  result (Toy.collect Toy.beams [("y0", PyBool true); ("x0", PyBool true)])
  = Returns {[ "x0" := NdArray [3%Z; 4%Z]; "y0" := NdArray [3%Z; 4%Z] ]}.
Proof.
  apply (collect_data_option_order Toy.getattr Toy.BeamState Toy.np_reject
           Toy.beams [("x0", PyBool true); ("y0", PyBool true)]).
  - apply perm_swap.
  - vm_compute. reflexivity.
Defined.

(** X7: [x0=True] and [x0=0] are the same request. *)
Lemma collect_data_option_values_witness :
  Toy.collect Toy.beams [("x0", PyBool true)]
  = Toy.collect Toy.beams [("x0", PyInt 0)].
Proof.
  apply (proj2 (collect_data_option_values Toy.getattr Toy.BeamState
                  Toy.np_reject Toy.beams [] [] "x0")).
  - discriminate.
  - discriminate.
Defined.

(** X8: a name no state answers, before or after conversion. *)
Lemma collect_data_missing_attribute_witness :
  returns (result (Toy.collect Toy.raws [("nope", PyBool true)])) = false.
Proof.
  apply (collect_data_missing_attribute Toy.getattr Toy.BeamState
           Toy.np_reject Toy.raws [("nope", PyBool true)] "nope").
  - apply list_elem_of_here.
  - reflexivity.
  - reflexivity.
Defined.

(** X9: the [TypeError] that comes out is the constructor's, on the
    first state. *)
Lemma collect_data_exception_origin_witness :
  (exists s, s ∈ Toy.refused_first.*2 /\
             Toy.BeamState s = Raises Toy.TypeError) \/
  (exists res' k,
     result (Toy.convert Toy.refused_first []) = Returns res' /\
     k ∈ ["x0"] /\
     ((exists b, b ∈ res'.*2 /\ Toy.getattr b k = Raises Toy.TypeError) \/
      (exists vs,
         traverse (fun b => Toy.getattr b k) res'.*2 = Returns vs /\
         Toy.np_reject vs = Some Toy.TypeError))).
Proof.
  apply (collect_data_exception_origin Toy.getattr Toy.BeamState
           Toy.np_reject Toy.refused_first [("x0", PyBool true)]
           Toy.TypeError).
  vm_compute. reflexivity.
Defined.

(** X10: two names on two [BeamState]s: no constructor call, and
    the four reads, name by name.  Then two raw states: the direct
    pass stops at the first read, the second pass reads the two
    converted states. *)
Lemma collect_data_calls_witness :
  (wrapped (trace (Toy.collect Toy.beams
                     [("x0", PyBool true); ("pos", PyBool true)])) = [] /\
   attr_reads (trace (Toy.collect Toy.beams
                        [("x0", PyBool true); ("pos", PyBool true)]))
   = [(Toy.beam 3, "x0"); (Toy.beam 4, "x0");
      (Toy.beam 3, "pos"); (Toy.beam 4, "pos")]) /\
  (exists p1 p2,
     attr_reads (trace (Toy.collect Toy.raws [("x0", PyBool true)]))
     = p1 ++ p2 /\
     p1 `prefix_of`
       [(Toy.raw [("x0", 5%Z)], "x0"); (Toy.raw [("x0", 6%Z)], "x0")] /\
     p2 `prefix_of`
       [(Toy.TObj [("x0", 5%Z)] (Some [("x0", 5%Z)]), "x0");
        (Toy.TObj [("x0", 6%Z)] (Some [("x0", 6%Z)]), "x0")]).
Proof.
  split.
  - apply (proj1 (proj2 (collect_data_calls Toy.getattr Toy.BeamState
                           Toy.np_reject Toy.beams
                           [("x0", PyBool true); ("pos", PyBool true)]))).
    vm_compute. reflexivity.
  - apply (proj2 (proj2 (collect_data_calls Toy.getattr Toy.BeamState
                           Toy.np_reject Toy.raws [("x0", PyBool true)]))).
    vm_compute. reflexivity.
Defined.
